(** * VOXA review feed: distance annotation and feed composition

    A shallow embedding of [server/reviews.ts] (the Haversine helper
    [calculateDistance], [processLocation] and the review route handlers), of
    the group router [server/groups.ts] and of the follow handlers of
    [server/social.ts], together with the properties of the feed core.

    JavaScript numbers are IEEE-754 binary64 values and are modelled by Rocq's
    primitive floats.  The functions of the JavaScript runtime that the code
    calls but does not define ([Math.sin], [Math.cos], [Math.atan2], the
    string-to-number conversions) are fields of a [Platform] record.  SQL
    queries built with the ORM are list comprehensions over the tables. *)

From Stdlib Require Import ZArith Bool List String Ascii Lia.
From Stdlib Require Import Floats Permutation Sorted.
Import ListNotations.

Set Warnings "-inexact-float,-register-all".

Local Open Scope string_scope.
Local Open Scope Z_scope.

(** ** JavaScript values *)

Module Js.

(** The values that reach the code from JSON request bodies, [jsonb]
    columns and optional parameters. *)
Inductive value : Type :=
| JUndefined
| JNull
| JBool (b : bool)
| JNum (f : float)
| JStr (s : string)
| JArr (items : list value)
| JObj (fields : list (string * value)).

Definition is_undefined (v : value) : bool :=
  match v with JUndefined => true | _ => false end.

Definition is_null (v : value) : bool :=
  match v with JNull => true | _ => false end.

Definition is_nullish (v : value) : bool := is_undefined v || is_null v.

(** [typeof v === 'number'] *)
Definition typeof_number (v : value) : bool :=
  match v with JNum _ => true | _ => false end.

(** [typeof v === 'object'] (which also holds of [null]) *)
Definition typeof_object (v : value) : bool :=
  match v with JNull | JArr _ | JObj _ => true | _ => false end.

(** ToBoolean: the falsy values are [undefined], [null], [false], [+0],
    [-0], [NaN] and the empty string. *)
Definition ToBoolean (v : value) : bool :=
  match v with
  | JUndefined | JNull => false
  | JBool b => b
  | JNum f => negb (is_zero f || is_nan f)
  | JStr s => negb (String.eqb s EmptyString)
  | JArr _ | JObj _ => true
  end.

Fixpoint assoc (k : string) (fields : list (string * value)) : value :=
  match fields with
  | [] => JUndefined
  | (k', v) :: rest => if String.eqb k k' then v else assoc k rest
  end.

(** Property read [v.k] for the keys the code reads ([coordinates], [lat],
    [lng], [formatted_address]): a primitive or an array has none of them;
    reading from [undefined] or [null] throws a TypeError ([None]). *)
Definition get (v : value) (k : string) : option value :=
  match v with
  | JUndefined | JNull => None
  | JObj fields => Some (assoc k fields)
  | _ => Some JUndefined
  end.

(** Optional chaining [v?.k] *)
Definition get_opt (v : value) (k : string) : value :=
  match get v k with
  | Some x => x
  | None => JUndefined
  end.

(** [a || b] *)
Definition or_else (a b : value) : value := if ToBoolean a then a else b.

End Js.

Import Js.

(** ** The runtime the code runs on *)

(** Functions of the JavaScript runtime that the code calls.  ECMAScript
    leaves the results of the [Math] functions implementation-approximated. *)
Record Platform : Type := {
  Math_sin : float -> float;
  Math_cos : float -> float;
  Math_atan2 : float -> float -> float;
  (** [Number(s)] on a string *)
  StringToNumber : string -> float;
  (** [Number(a)] on an array (its [toString], then [StringToNumber]) *)
  ArrayToNumber : list value -> float;
  (** the global [parseFloat] on a string *)
  parseFloat : string -> float
}.

(** A platform with the small-angle approximations of the trigonometric
    functions, on which the definitions can be run. *)
Definition smallAngle : Platform := {|
  Math_sin := fun x => x;
  Math_cos := fun _ => 1%float;
  Math_atan2 := fun y x => (y / x)%float;
  StringToNumber := fun _ => nan;
  ArrayToNumber := fun _ => nan;
  parseFloat := fun _ => nan
|}.

(** [Math.PI] *)
Definition Math_PI : float := 0x1.921fb54442d18p+1%float.

(** ** [Number.prototype.toFixed(1)] followed by [Number(...)] *)

(** The integer [n] for which [n / 10] is closest to [m * 2^e]; the larger
    one when two are as close (step 8.a of Number.prototype.toFixed). *)
Definition nearest_tenths (m : positive) (e : Z) : Z :=
  match e with
  | Zneg p => (20 * Zpos m + 2 ^ Zpos p) / (2 * 2 ^ Zpos p)
  | _ => 10 * Zpos m * 2 ^ e
  end.

(** The binary64 value nearest to [n / 10], which is what [Number] reads
    from the decimal string that [toFixed] printed. *)
Definition tenths_to_float (n : Z) : float :=
  match n with
  | Zpos p => SF2Prim (SFdiv prec emax (S754_finite false p 0) (S754_finite false 10 0))
  | _ => 0%float
  end.

(** [Number(x.toFixed(1))].  A value that is not finite, or is at least
    [1e21] in magnitude, is printed by [ToString] and read back unchanged. *)
Definition toFixed1 (x : float) : float :=
  match Prim2SF x with
  | S754_finite s m e =>
      if (1e21 <=? abs x)%float then x
      else
        let r := tenths_to_float (nearest_tenths m e) in
        if s then (- r)%float else r
  | S754_zero _ => 0%float
  | _ => x
  end.

Section Runtime.

Variable P : Platform.

(** ToNumber, as applied by [Number(v)], [isNaN(v)] and the arithmetic
    operators.  A plain object converts through ["[object Object]"]. *)
Definition ToNumber (v : value) : float :=
  match v with
  | JUndefined => nan
  | JNull => 0%float
  | JBool b => if b then 1%float else 0%float
  | JNum f => f
  | JStr s => StringToNumber P s
  | JArr items => ArrayToNumber P items
  | JObj _ => nan
  end.

(** the global [isNaN] *)
Definition isNaN (v : value) : bool := is_nan (ToNumber v).

(** *** [calculateDistance] (reviews.ts, lines 1-34)

    The result is [None] for [undefined].  None of the calls in the [try]
    block throws on these values, so the [catch] branch is not reached. *)
Definition calculateDistance (lat1 lon1 lat2 lon2 : value) : option float :=
  let coords := [lat1; lon1; lat2; lon2] in
  if existsb (fun coord => is_undefined coord || is_null coord || isNaN coord) coords
  then None
  else
    let lat1Rad := (ToNumber lat1 * Math_PI / 180)%float in
    let lon1Rad := (ToNumber lon1 * Math_PI / 180)%float in
    let lat2Rad := (ToNumber lat2 * Math_PI / 180)%float in
    let lon2Rad := (ToNumber lon2 * Math_PI / 180)%float in
    let R := 6371%float in
    let dLat := (lat2Rad - lat1Rad)%float in
    let dLon := (lon2Rad - lon1Rad)%float in
    let a :=
      (Math_sin P (dLat / 2) * Math_sin P (dLat / 2) +
       Math_cos P lat1Rad * Math_cos P lat2Rad *
       Math_sin P (dLon / 2) * Math_sin P (dLon / 2))%float in
    let c := (2 * Math_atan2 P (sqrt a) (sqrt (1 - a)))%float in
    let distance := (R * c)%float in
    Some (toFixed1 distance).

(** *** [processLocation] (reviews.ts, lines 36-83) *)

Record LocationData : Type := {
  coordinates : float * float;          (* lat, lng *)
  formatted_address : value;
  distance : option float
}.

(** [None] is the [null] result, also returned from the [catch] branch. *)
Definition processLocation (location userLat userLng : value) : option LocationData :=
  if negb (ToBoolean location) || negb (typeof_object location) then None
  else
    let coords := get_opt location "coordinates" in
    if negb (ToBoolean (get_opt coords "lat")) || negb (ToBoolean (get_opt coords "lng"))
    then None
    else
      match get location "coordinates", get location "formatted_address" with
      | Some c, Some addr =>
          match get c "lat", get c "lng" with
          | Some lat, Some lng =>
              let processedLocation :=
                {| coordinates := (ToNumber lat, ToNumber lng);
                   formatted_address := or_else addr (JStr "");
                   distance := None |} in
              if typeof_number userLat && typeof_number userLng then
                match calculateDistance userLat userLng
                        (JNum (fst (coordinates processedLocation)))
                        (JNum (snd (coordinates processedLocation))) with
                | Some d =>
                    Some {| coordinates := coordinates processedLocation;
                            formatted_address := formatted_address processedLocation;
                            distance := Some d |}
                | None => Some processedLocation
                end
              else Some processedLocation
          | _, _ => None
          end
      | _, _ => None
      end.

End Runtime.

(** ** The formula of the distance annotation, as the specification words it *)

Section HaversineSpec.

Variable P : Platform.

Definition radians (deg : float) : float := (deg * Math_PI / 180)%float.

Definition sq (x : float) : float := (x * x)%float.

(** a = sin²(Δlat/2) + cos(lat1)·cos(lat2)·sin²(Δlon/2),
    c = 2·atan2(√a, √(1−a)),  distance_km = R·c,  R = 6371

    with the angles in radians and every operation rounded to binary64.
    Products are taken from left to right: binary64 multiplication is not
    associative, so [cos lat1 * cos lat2 * s * s] and
    [cos lat1 * cos lat2 * (s * s)] can differ in the last bit. *)
Definition haversine_km (lat1 lon1 lat2 lon2 : float) : float :=
  let dlat := (radians lat2 - radians lat1)%float in
  let dlon := (radians lon2 - radians lon1)%float in
  let s := Math_sin P (dlon / 2) in
  let a :=
    (sq (Math_sin P (dlat / 2))
     + Math_cos P (radians lat1) * Math_cos P (radians lat2) * s * s)%float in
  let c := (2 * Math_atan2 P (sqrt a) (sqrt (1 - a)))%float in
  (6371 * c)%float.

End HaversineSpec.

(** ** Rounding to one decimal place, as the specification words it *)



(** ** The database *)

(** The tables of [db/schema.ts] that the feed core reads and writes, with
    the columns it uses.  A table is the list of its rows, in no particular
    order.  Every [id] column is a [serial] primary key; timestamps are
    integers. *)

Record User : Type := {
  user_id : Z;
  username : string
}.

Record Follow : Type := {
  follow_id : Z;
  followerId : Z;
  followingId : Z
}.

Record Group : Type := {
  group_id : Z;
  group_name : string
}.

Record GroupMember : Type := {
  member_id : Z;
  member_groupId : Z;
  member_userId : Z;
  member_role : string
}.

Record Review : Type := {
  review_id : Z;
  review_userId : Z;
  placeId : string;
  placeName : option string;
  rating : Z;
  comment : option string;
  isPublic : bool;
  groupId : option Z;
  location : value;                  (* jsonb; [JNull] for SQL NULL *)
  createdAt : Z
}.

Record ReviewLike : Type := {
  like_id : Z;
  like_reviewId : Z;
  like_userId : Z;
  like_createdAt : Z
}.

Record Database : Type := {
  users : list User;
  follows : list Follow;
  groups : list Group;
  groupMembers : list GroupMember;
  reviews : list Review;
  reviewLikes : list ReviewLike;
  reviews_seq : Z;                   (* next value of the [serial] of reviews.id *)
  reviewLikes_seq : Z                (* next value of the [serial] of review_likes.id *)
}.

(** The constraints the schema declares and the feed properties rely on:
    [users.id] and [reviews.id] are primary keys and [reviews.user_id]
    references [users.id]. *)
Fixpoint distinct (l : list Z) : bool :=
  match l with
  | [] => true
  | x :: rest => negb (existsb (Z.eqb x) rest) && distinct rest
  end.

Definition schema_ok (db : Database) : bool :=
  distinct (map user_id (users db))
  && distinct (map review_id (reviews db))
  && forallb (fun r => existsb (fun u => user_id u =? review_userId r) (users db))
             (reviews db).

(** The values of an [integer] column.  The ids and the rating are
    [serial] and [integer] columns; a statement that compares one of them
    with a number outside this range, or stores such a number, is rejected
    by the database ("out of range for type integer"), and the [await]
    throws into the handler's [catch].  An id of a route is the integer
    that [parseInt] reads from the path segment. *)
Definition int4 (n : Z) : bool := (-2147483648 <=? n) && (n <=? 2147483647).

(** The values of a [text] column: the database rejects a statement with
    a text that holds the character U+0000. *)
Fixpoint pg_text (s : string) : bool :=
  match s with
  | EmptyString => true
  | String c rest => negb (Ascii.eqb c Ascii.zero) && pg_text rest
  end.

(** The values of a [jsonb] column: no string and no key of the value
    holds that character. *)
Fixpoint pg_jsonb (v : value) : bool :=
  match v with
  | JStr s => pg_text s
  | JArr items => forallb pg_jsonb items
  | JObj fields =>
      forallb (fun kv => let '(k, x) := kv in pg_text k && pg_jsonb x) fields
  | _ => true
  end.

(** *** Query results *)

(** The columns every feed selects; [L] is the type of the [location]
    column, raw ([value]) or processed ([option LocationData]). *)
Record ReviewCols (L : Type) : Type := {
  col_id : Z;
  col_placeId : string;
  col_placeName : option string;
  col_rating : Z;
  col_comment : option string;
  col_createdAt : Z;
  col_username : option string;      (* [None] only under a left join *)
  col_location : L
}.

Arguments col_id {L}.
Arguments col_placeId {L}.
Arguments col_placeName {L}.
Arguments col_rating {L}.
Arguments col_comment {L}.
Arguments col_createdAt {L}.
Arguments col_username {L}.
Arguments col_location {L}.

(** A row of the following and place feeds. *)
Record LikedRow (L : Type) : Type := {
  liked_cols : ReviewCols L;
  likes : Z;
  isLiked : bool
}.

Arguments liked_cols {L}.
Arguments likes {L}.
Arguments isLiked {L}.

(** A row of the community feed. *)
Record CommunityRow (L : Type) : Type := {
  community_cols : LikedRow L;
  row_groupId : option Z;
  row_groupName : option string
}.

Arguments community_cols {L}.
Arguments row_groupId {L}.
Arguments row_groupName {L}.

(** A row of the group feed. *)
Record GroupRow : Type := {
  group_cols : ReviewCols value;
  row_userId : Z
}.

Definition select_cols (r : Review) (u : option User) : ReviewCols value :=
  {| col_id := review_id r;
     col_placeId := placeId r;
     col_placeName := placeName r;
     col_rating := rating r;
     col_comment := comment r;
     col_createdAt := createdAt r;
     col_username := option_map username u;
     col_location := location r |}.

Definition set_location {L M : Type} (c : ReviewCols L) (l : M) : ReviewCols M :=
  {| col_id := col_id c;
     col_placeId := col_placeId c;
     col_placeName := col_placeName c;
     col_rating := col_rating c;
     col_comment := col_comment c;
     col_createdAt := col_createdAt c;
     col_username := col_username c;
     col_location := l |}.

(** *** Query fragments *)

(** The rows of [users] that an inner join on [reviews.user_id = users.id]
    pairs with [r]. *)
Definition authors (db : Database) (r : Review) : list User :=
  filter (fun u => review_userId r =? user_id u) (users db).

(** The rows of [review_likes] that the left join on
    [reviews.id = review_likes.review_id] pairs with [r]. *)
Definition likesOf (db : Database) (r : Review) : list ReviewLike :=
  filter (fun l => review_id r =? like_reviewId l) (reviewLikes db).

(** [EXISTS (SELECT 1 FROM review_likes rl WHERE rl.review_id = r.id
    AND rl.user_id = userId)] *)
Definition likeExists (db : Database) (reviewId userId : Z) : bool :=
  existsb (fun l => (like_reviewId l =? reviewId) && (like_userId l =? userId))
          (reviewLikes db).

(** The [is_liked] column: the [EXISTS] subquery when [userId] is truthy,
    the constant [false] otherwise. *)
Definition isLikedColumn (db : Database) (r : Review) (userId : option Z) : bool :=
  match userId with
  | Some uid => likeExists db (review_id r) uid
  | None => false
  end.

(** The [group_name] subquery of the community feed:
    [SELECT name FROM group_members JOIN groups ON groups.id =
    group_members.group_id WHERE group_members.group_id = r.group_id LIMIT 1] *)
Definition groupNameColumn (db : Database) (r : Review) : option string :=
  match groupId r with
  | None => None
  | Some g =>
      hd_error
        (flat_map
           (fun m =>
              if member_groupId m =? g
              then map group_name
                     (filter (fun grp => group_id grp =? member_groupId m) (groups db))
              else [])
           (groupMembers db))
  end.

(** The rows of [follows] that the inner join on
    [reviews.user_id = follows.following_id] pairs with [r] and that pass
    [follows.follower_id = viewer]. *)
Definition followEdges (db : Database) (viewer : Z) (r : Review) : list Follow :=
  filter (fun f => (review_userId r =? followingId f) && (followerId f =? viewer))
         (follows db).

(** [SELECT ... FROM group_members WHERE group_id = g AND user_id = u
    LIMIT 1] *)
Definition membership (db : Database) (g u : Z) : list GroupMember :=
  firstn 1 (filter (fun m => (member_groupId m =? g) && (member_userId m =? u))
                   (groupMembers db)).

(** *** The feed queries, before [ORDER BY]

    The community, following and place queries group by the primary keys of
    the joined review and user (and by columns these determine), so that a
    joined pair is one group; [count(review_likes.id)] counts the joined
    rows of the group that carry a like.  The group query has no
    [GROUP BY] and no join that multiplies rows. *)

Definition communityQuery (db : Database) (userId : option Z)
  : list (CommunityRow value) :=
  flat_map
    (fun r =>
       if isPublic r then
         map (fun u =>
                {| community_cols :=
                     {| liked_cols := select_cols r (Some u);
                        likes := Z.of_nat (List.length (likesOf db r));
                        isLiked := isLikedColumn db r userId |};
                   row_groupId := groupId r;
                   row_groupName := groupNameColumn db r |})
             (authors db r)
       else [])
    (reviews db).

Definition followingQuery (db : Database) (viewer : Z) : list (LikedRow value) :=
  flat_map
    (fun r =>
       flat_map
         (fun u =>
            let edges := followEdges db viewer r in
            if isPublic r && negb (Nat.eqb (List.length edges) 0) then
              [ {| liked_cols := select_cols r (Some u);
                   likes := Z.of_nat (List.length (likesOf db r) * List.length edges);
                   isLiked := likeExists db (review_id r) viewer |} ]
            else [])
         (authors db r))
    (reviews db).

Definition placeQuery (db : Database) (place : string) (userId : option Z)
  : list (LikedRow value) :=
  flat_map
    (fun r =>
       if String.eqb (placeId r) place then
         map (fun u =>
                {| liked_cols := select_cols r u;
                   likes := Z.of_nat (List.length (likesOf db r));
                   isLiked := isLikedColumn db r userId |})
             (match authors db r with
              | [] => [None]
              | us => map Some us
              end)
       else [])
    (reviews db).

Definition groupQuery (db : Database) (g : Z) : list GroupRow :=
  flat_map
    (fun r =>
       match groupId r with
       | Some g' =>
           if g' =? g then
             map (fun u => {| group_cols := select_cols r (Some u);
                              row_userId := review_userId r |})
                 (authors db r)
           else []
       | None => []
       end)
    (reviews db).

(** *** [ORDER BY created_at DESC]

    The clause fixes the order of rows with different timestamps only: the
    database may return rows with equal timestamps in any order.  [out] is
    an admissible result for the rows [rows]. *)
Definition orderBy_desc {A : Type} (key : A -> Z) (rows out : list A) : Prop :=
  Permutation rows out /\ StronglySorted (fun a b => key b <= key a) out.

(** One way of producing an admissible result: insertion sort, which keeps
    rows with equal keys in the order of [rows]. *)
Fixpoint insert_desc {A : Type} (key : A -> Z) (x : A) (l : list A) : list A :=
  match l with
  | [] => [x]
  | y :: rest => if key y <=? key x then x :: l else y :: insert_desc key x rest
  end.

Definition sort_desc {A : Type} (key : A -> Z) (l : list A) : list A :=
  fold_right (insert_desc key) [] l.

(** ** The route handlers *)

Inductive Reply (A : Type) : Type :=
| Json (status : Z) (body : A)              (* res.status(s).json(body) *)
| Message (status : Z) (key text : string)  (* res.status(s).json({ key: text }) *)
| Empty (status : Z).                       (* res.status(s).send() *)

Arguments Json {A}.
Arguments Message {A}.
Arguments Empty {A}.

(** What a handler reads from a GET request: [req.user] (the id of the
    session's user, when there is one) and the query string. *)
Record FeedRequest : Type := {
  req_user : option Z;
  query_userLat : option string;
  query_userLng : option string
}.

(** [req.isAuthenticated()] *)
Definition isAuthenticated (user : option Z) : bool :=
  match user with Some _ => true | None => false end.

(** [req.user?.id], [None] when it is falsy. *)
Definition truthy_id (user : option Z) : option Z :=
  match user with
  | Some uid => if uid =? 0 then None else Some uid
  | None => None
  end.

Section Handlers.

Variable P : Platform.

(** [q ? parseFloat(q) : undefined] *)
Definition queryCoordinate (q : option string) : value :=
  match q with
  | Some s => if String.eqb s EmptyString then JUndefined else JNum (parseFloat P s)
  | None => JUndefined
  end.

(** [review.location ? processLocation(review.location, userLat, userLng) : null] *)
Definition formatLocation (userLat userLng : value) (loc : value)
  : option LocationData :=
  if ToBoolean loc then processLocation P loc userLat userLng else None.

Definition formatCols (req : FeedRequest) (c : ReviewCols value)
  : ReviewCols (option LocationData) :=
  set_location c
    (formatLocation (queryCoordinate (query_userLat req))
                    (queryCoordinate (query_userLng req))
                    (col_location c)).

Definition formatLiked (req : FeedRequest) (row : LikedRow value)
  : LikedRow (option LocationData) :=
  {| liked_cols := formatCols req (liked_cols row);
     likes := likes row;
     isLiked := isLiked row |}.

Definition formatCommunity (req : FeedRequest) (row : CommunityRow value)
  : CommunityRow (option LocationData) :=
  {| community_cols := formatLiked req (community_cols row);
     row_groupId := row_groupId row;
     row_groupName := row_groupName row |}.

(** *** GET /reviews/community (reviews.ts, lines 103-174) *)
Definition getCommunity (db : Database) (req : FeedRequest)
           (reply : Reply (list (CommunityRow (option LocationData)))) : Prop :=
  if negb (isAuthenticated (req_user req)) then
    reply = Message 401 "message" "Not authenticated"
  else
    exists communityReviews,
      orderBy_desc (fun row => col_createdAt (liked_cols (community_cols row)))
                   (communityQuery db (truthy_id (req_user req)))
                   communityReviews
      /\ reply = Json 200 (map (formatCommunity req) communityReviews).

(** *** GET /reviews/following (reviews.ts, lines 176-237) *)
Definition getFollowing (db : Database) (req : FeedRequest)
           (reply : Reply (list (LikedRow (option LocationData)))) : Prop :=
  match truthy_id (req_user req) with
  | None => reply = Message 401 "error" "Not authenticated"
  | Some viewer =>
      exists followingReviews,
        orderBy_desc (fun row => col_createdAt (liked_cols row))
                     (followingQuery db viewer) followingReviews
        /\ reply = Json 200 (map (formatLiked req) followingReviews)
  end.

(** *** GET /reviews/place/:placeId (reviews.ts, lines 239-298)

    The handler has no session check of its own.  [registerRoutes] mounts
    the likes router at [/api] before the reviews router, and that router
    starts with [router.use(requireAuth)] (likes.ts, lines 9-22): a request
    without [req.user?.id] is answered there and never reaches the
    handler.  [place] is the decoded path segment; the query throws when
    it is not a text the database takes. *)
Definition getPlace (db : Database) (req : FeedRequest) (place : string)
           (reply : Reply (list (LikedRow (option LocationData)))) : Prop :=
  match truthy_id (req_user req) with
  | None => reply = Message 401 "error" "Not logged in"
  | Some viewer =>
      if negb (pg_text place) then
        reply = Message 500 "error" "Failed to fetch reviews"
      else
        exists placeReviews,
          orderBy_desc (fun row => col_createdAt (liked_cols row))
                       (placeQuery db place (Some viewer)) placeReviews
          /\ reply = Json 200 (map (formatLiked req) placeReviews)
  end.

(** *** GET /groups/:groupId/reviews (groups.ts, lines 295-337)

    [group] is the integer that [parseInt(req.params.groupId)] reads.  The
    router runs [requireAuth] before every handler.  The membership query
    is the first statement sent to the database: it throws for a [group]
    outside [int4], and the [catch] answers 500. *)
Definition getGroupReviews (db : Database) (req : FeedRequest) (group : Z)
           (reply : Reply (list GroupRow)) : Prop :=
  match truthy_id (req_user req) with
  | None => reply = Message 401 "message" "Not authenticated"
  | Some viewer =>
      if negb (int4 group) then
        reply = Message 500 "message" "Failed to fetch group reviews"
      else if Nat.eqb (List.length (membership db group viewer)) 0 then
        reply = Message 403 "message" "Not a member of this group"
      else
        exists groupReviews,
          orderBy_desc (fun row => col_createdAt (group_cols row))
                       (groupQuery db group) groupReviews
          /\ reply = Json 200 groupReviews
  end.

(** The feeds with the rows ordered by insertion sort. *)
Definition runCommunity (db : Database) (req : FeedRequest)
  : Reply (list (CommunityRow (option LocationData))) :=
  if negb (isAuthenticated (req_user req)) then
    Message 401 "message" "Not authenticated"
  else
    Json 200
      (map (formatCommunity req)
           (sort_desc (fun row => col_createdAt (liked_cols (community_cols row)))
                      (communityQuery db (truthy_id (req_user req))))).

Definition runFollowing (db : Database) (req : FeedRequest)
  : Reply (list (LikedRow (option LocationData))) :=
  match truthy_id (req_user req) with
  | None => Message 401 "error" "Not authenticated"
  | Some viewer =>
      Json 200
        (map (formatLiked req)
             (sort_desc (fun row => col_createdAt (liked_cols row))
                        (followingQuery db viewer)))
  end.

Definition runPlace (db : Database) (req : FeedRequest) (place : string)
  : Reply (list (LikedRow (option LocationData))) :=
  match truthy_id (req_user req) with
  | None => Message 401 "error" "Not logged in"
  | Some viewer =>
      if negb (pg_text place) then Message 500 "error" "Failed to fetch reviews"
      else
        Json 200
          (map (formatLiked req)
               (sort_desc (fun row => col_createdAt (liked_cols row))
                          (placeQuery db place (Some viewer))))
  end.

Definition runGroupReviews (db : Database) (req : FeedRequest) (group : Z)
  : Reply (list GroupRow) :=
  match truthy_id (req_user req) with
  | None => Message 401 "message" "Not authenticated"
  | Some viewer =>
      if negb (int4 group) then
        Message 500 "message" "Failed to fetch group reviews"
      else if Nat.eqb (List.length (membership db group viewer)) 0 then
        Message 403 "message" "Not a member of this group"
      else
        Json 200 (sort_desc (fun row => col_createdAt (group_cols row))
                            (groupQuery db group))
  end.

(** *** POST /reviews/:reviewId/like (reviews.ts, lines 300-332)

    [reviewId] is the integer that [parseInt(req.params.reviewId)] reads;
    [now] is the clock value that [defaultNow()] stores.  The query for an
    existing like throws for a [reviewId] outside [int4]. *)

(** [db.insert(reviewLikes).values({ reviewId, userId })]; the foreign
    keys of the table make the insert fail ([None]) when the review or
    the user does not exist. *)
Definition insertLike (db : Database) (reviewId userId now : Z) : option Database :=
  if existsb (fun r => review_id r =? reviewId) (reviews db)
     && existsb (fun u => user_id u =? userId) (users db)
  then
    Some {| users := users db;
            follows := follows db;
            groups := groups db;
            groupMembers := groupMembers db;
            reviews := reviews db;
            reviewLikes :=
              reviewLikes db ++
              [ {| like_id := reviewLikes_seq db;
                   like_reviewId := reviewId;
                   like_userId := userId;
                   like_createdAt := now |} ];
            reviews_seq := reviews_seq db;
            reviewLikes_seq := reviewLikes_seq db + 1 |}
  else None.

Definition postLike (db : Database) (user : option Z) (reviewId now : Z)
  : Reply unit * Database :=
  match truthy_id user with
  | None => (Message 401 "message" "Not authenticated", db)
  | Some uid =>
      if negb (int4 reviewId) then
        (Message 500 "message" "Failed to like review", db)
      else
        let existingLike :=
          firstn 1 (filter (fun l => (like_reviewId l =? reviewId)
                                     && (like_userId l =? uid))
                           (reviewLikes db)) in
        if Nat.ltb 0 (List.length existingLike) then
          (Message 400 "message" "Already liked this review", db)
        else
          match insertLike db reviewId uid now with
          | Some db' => (Message 201 "message" "Review liked successfully", db')
          | None => (Message 500 "message" "Failed to like review", db)
          end
  end.

(** *** DELETE /reviews/:reviewId/like (reviews.ts, lines 334-354)

    The [DELETE] statement throws for a [reviewId] outside [int4]. *)
Definition deleteLike (db : Database) (user : option Z) (reviewId : Z)
  : Reply unit * Database :=
  match truthy_id user with
  | None => (Message 401 "message" "Not authenticated", db)
  | Some uid =>
      if negb (int4 reviewId) then
        (Message 500 "message" "Failed to unlike review", db)
      else
        (Empty 204,
         {| users := users db;
            follows := follows db;
            groups := groups db;
            groupMembers := groupMembers db;
            reviews := reviews db;
            reviewLikes :=
              filter (fun l => negb ((like_reviewId l =? reviewId)
                                     && (like_userId l =? uid)))
                     (reviewLikes db);
            reviews_seq := reviews_seq db;
            reviewLikes_seq := reviewLikes_seq db |})
  end.

(** *** POST /reviews (reviews.ts, lines 385-476) *)

(** [req.body], with the field types of the columns they are stored in;
    [None] is an absent field. *)
Record ReviewBody : Type := {
  body_placeId : option string;
  body_rating : option Z;
  body_comment : option string;
  body_placeName : option string;
  body_location : value;
  body_groupId : option Z
}.

Definition truthy_string (s : option string) : option string :=
  match s with
  | Some x => if String.eqb x EmptyString then None else Some x
  | None => None
  end.

Definition truthy_int (n : option Z) : option Z :=
  match n with
  | Some x => if x =? 0 then None else Some x
  | None => None
  end.

(** The body of the 201 reply:
    [{ ...newReview, username, location: processedLocation, likes: 0,
    isLiked: false }] *)
Record CreatedReview : Type := {
  created_review : Review;
  created_username : string;
  created_location : LocationData;
  created_likes : Z;
  created_isLiked : bool
}.

(** [if (groupId) { ... }]: the membership query runs for a truthy
    [groupId] only.  It throws for a group id outside [int4] (the [catch]
    answers 500) and refuses a user it finds no row for. *)
Definition membershipRefusal (db : Database) (uid : Z) (g : option Z)
  : option (Reply CreatedReview) :=
  match g with
  | Some g' =>
      if negb (int4 g') then Some (Message 500 "error" "Failed to create review")
      else if Nat.eqb (List.length (membership db g' uid)) 0
      then Some (Message 403 "error" "Not a member of this group")
      else None
  | None => None
  end.

(** *** A value written to a [jsonb] column and read back

    The ORM writes the column with [JSON.stringify]; the driver reads it
    with [JSON.parse]. *)

(** [JSON.stringify] writes a number that is not finite as [null], and
    both zeros as [0]. *)
Definition json_number (f : float) : value :=
  if is_finite f then (if is_zero f then JNum 0 else JNum f) else JNull.

(** The order in which [jsonb] keeps the keys of an object: shorter keys
    first, keys of the same length bytewise. *)
Definition key_leb (a b : string) : bool :=
  match Nat.compare (String.length a) (String.length b) with
  | Lt => true
  | Gt => false
  | Eq => String.leb a b
  end.

(** Puts a field in its place among sorted fields; of two fields with the
    same key the one that [assoc] finds is kept. *)
Fixpoint insert_field (kv : string * value) (l : list (string * value))
  : list (string * value) :=
  match l with
  | [] => [kv]
  | x :: rest =>
      if String.eqb (fst kv) (fst x) then kv :: rest
      else if key_leb (fst kv) (fst x) then kv :: l
      else x :: insert_field kv rest
  end.

(** What is read back for [v]: a number that is not finite has become
    [null], a field that is [undefined] is gone, an [undefined] array
    element has become [null]. *)
Fixpoint json_stored (v : value) : value :=
  match v with
  | JNum f => json_number f
  | JArr items =>
      JArr (map (fun x => if is_undefined x then JNull else json_stored x) items)
  | JObj fields =>
      JObj (fold_right insert_field []
              ((fix stored_fields (fs : list (string * value))
                  : list (string * value) :=
                  match fs with
                  | [] => []
                  | (k, x) :: rest =>
                      if is_undefined x then stored_fields rest
                      else (k, json_stored x) :: stored_fields rest
                  end) fields))
  | _ => v
  end.

(** The object [processLocation] returns, as a value. *)
Definition location_object (l : LocationData) : value :=
  JObj ([ ("coordinates", JObj [ ("lat", JNum (fst (coordinates l)));
                                 ("lng", JNum (snd (coordinates l))) ]);
          ("formatted_address", formatted_address l) ]
        ++ match distance l with
           | Some d => [ ("distance", JNum d) ]
           | None => []
           end).

(** The processed location as the [location] column holds it. *)
Definition location_json (l : LocationData) : value :=
  json_stored (location_object l).

(** The database accepts the new row [r] of [reviews]: the id is a fresh
    value of the [serial], the rating and the group id are values of their
    [integer] columns, the texts and the location can be stored, and the
    rows that [user_id] and [group_id] reference exist. *)
Definition reviewAccepted (db : Database) (r : Review) : bool :=
  int4 (review_id r)
  && negb (existsb (fun r' => review_id r' =? review_id r) (reviews db))
  && int4 (rating r)
  && pg_text (placeId r)
  && match placeName r with Some s => pg_text s | None => true end
  && match comment r with Some s => pg_text s | None => true end
  && pg_jsonb (location r)
  && existsb (fun u => user_id u =? review_userId r) (users db)
  && match groupId r with
     | Some g => int4 g && existsb (fun grp => group_id grp =? g) (groups db)
     | None => true
     end.

(** [db.insert(reviews).values({...}).returning()]; the [await] throws
    ([None]) when the database rejects the row. *)
Definition insertReview (db : Database) (r : Review) : option (Review * Database) :=
  if reviewAccepted db r then
    Some (r,
          {| users := users db;
             follows := follows db;
             groups := groups db;
             groupMembers := groupMembers db;
             reviews := reviews db ++ [r];
             reviewLikes := reviewLikes db;
             reviews_seq := reviews_seq db + 1;
             reviewLikes_seq := reviewLikes_seq db |})
  else None.

(** The values of the insert of POST /reviews, with the id and the
    timestamp that the database adds. *)
Definition reviewValues (db : Database) (uid : Z) (place : string) (stars : Z)
           (body : ReviewBody) (processedLocation : LocationData) (now : Z) : Review :=
  {| review_id := reviews_seq db;
     review_userId := uid;
     placeId := place;
     placeName := truthy_string (body_placeName body);
     rating := stars;
     comment := Some (match truthy_string (body_comment body) with
                      | Some c => c
                      | None => ""
                      end);
     isPublic := true;
     groupId := truthy_int (body_groupId body);
     location := location_json processedLocation;
     createdAt := now |}.

Definition postReview (db : Database) (user : option Z) (body : ReviewBody) (now : Z)
  : Reply CreatedReview * Database :=
  match truthy_id user with
  | None => (Message 401 "error" "Not authenticated", db)
  | Some uid =>
      match truthy_string (body_placeId body), truthy_int (body_rating body) with
      | Some place, Some stars =>
          match membershipRefusal db uid (truthy_int (body_groupId body)) with
          | Some refusal => (refusal, db)
          | None =>
              match processLocation P (body_location body) JUndefined JUndefined with
              | None => (Message 400 "error" "Invalid location data", db)
              | Some processedLocation =>
                  match
                    insertReview db
                      (reviewValues db uid place stars body processedLocation now)
                  with
                  | None => (Message 500 "error" "Failed to create review", db)
                  | Some (newReview, db') =>
                      match filter (fun u => user_id u =? uid) (users db') with
                      | u :: _ =>
                          (Json 201
                                {| created_review := newReview;
                                   created_username := username u;
                                   created_location := processedLocation;
                                   created_likes := 0;
                                   created_isLiked := false |},
                           db')
                      | [] => (Message 500 "error" "Failed to create review", db')
                      end
                  end
              end
          end
      | _, _ => (Message 400 "error" "Missing required fields", db)
      end
  end.

End Handlers.

(** ** Predicates of the feed properties *)

(** A [follows] row leads from [viewer] to [author]. *)
Definition followed (db : Database) (viewer author : Z) : bool :=
  existsb (fun f => (followerId f =? viewer) && (followingId f =? author)) (follows db).

(** A [group_members] row puts [user] in group [g]. *)
Definition isMember (db : Database) (g user : Z) : bool :=
  existsb (fun m => (member_groupId m =? g) && (member_userId m =? user))
          (groupMembers db).

Definition inGroup (g : Z) (r : Review) : bool :=
  match groupId r with
  | Some g' => g' =? g
  | None => false
  end.

Definition community_id (row : CommunityRow (option LocationData)) : Z :=
  col_id (liked_cols (community_cols row)).

Definition liked_id (row : LikedRow (option LocationData)) : Z :=
  col_id (liked_cols row).

Definition group_row_id (row : GroupRow) : Z := col_id (group_cols row).

(** The rows of a reply are in descending order of [key]. *)
Definition newest_first {A : Type} (key : A -> Z) (reply : Reply (list A)) : Prop :=
  match reply with
  | Json _ rows => StronglySorted (fun a b => key b <= key a) rows
  | _ => True
  end.

(** [count(review_likes.id)] for a review: its like count. *)
Definition likesOfReview (db : Database) (reviewId : Z) : Z :=
  Z.of_nat (List.length (filter (fun l => reviewId =? like_reviewId l) (reviewLikes db))).

(** The two checks of [processLocation] pass. *)
Definition hasCoordinates (location : value) : bool :=
  ToBoolean location && typeof_object location
  && ToBoolean (get_opt (get_opt location "coordinates") "lat")
  && ToBoolean (get_opt (get_opt location "coordinates") "lng").

(** The membership check of POST /reviews lets the request through. *)
Definition memberCheck (db : Database) (uid : Z) (g : option Z) : bool :=
  match truthy_int g with
  | Some g' => isMember db g' uid
  | None => true
  end.

(** The [groupId] of a request body, when truthy, is a value of the
    [integer] column. *)
Definition groupIdInRange (g : option Z) : bool :=
  match truthy_int g with
  | Some g' => int4 g'
  | None => true
  end.

(** ** Example data *)

Definition place_location (lat lng : float) (address : string) : value :=
  JObj [ ("coordinates", JObj [ ("lat", JNum lat); ("lng", JNum lng) ]);
         ("formatted_address", JStr address) ].

Definition newYork : value := place_location 40.7128 (-74.006) "New York".

(** A place on the equator. *)
Definition quito : value := place_location 0 (-78.4678) "Quito".

Definition exampleDb : Database := {|
  users := [ {| user_id := 1; username := "alice" |};
             {| user_id := 2; username := "bob" |} ];
  follows := [ {| follow_id := 1; followerId := 1; followingId := 2 |} ];
  groups := [ {| group_id := 1; group_name := "hikers" |} ];
  groupMembers := [ {| member_id := 1; member_groupId := 1; member_userId := 1;
                       member_role := "admin" |} ];
  reviews :=
    [ {| review_id := 1; review_userId := 2; placeId := "p1";
         placeName := Some "Cafe"; rating := 5; comment := Some "good";
         isPublic := true; groupId := None; location := newYork;
         createdAt := 100 |};
      {| review_id := 2; review_userId := 2; placeId := "p2";
         placeName := Some "Market"; rating := 4; comment := Some "";
         isPublic := true; groupId := None; location := quito;
         createdAt := 100 |};
      {| review_id := 3; review_userId := 1; placeId := "p1";
         placeName := None; rating := 3; comment := Some "";
         isPublic := false; groupId := Some 1; location := JNull;
         createdAt := 50 |} ];
  reviewLikes := [ {| like_id := 1; like_reviewId := 1; like_userId := 1;
                      like_createdAt := 120 |} ];
  reviews_seq := 4;
  reviewLikes_seq := 2
|}.


Definition anonymous : FeedRequest :=
  {| req_user := None; query_userLat := None; query_userLng := None |}.

Definition alice : FeedRequest :=
  {| req_user := Some 1; query_userLat := None; query_userLng := None |}.

Definition bob : FeedRequest :=
  {| req_user := Some 2; query_userLat := None; query_userLng := None |}.

(** A review body with [placeId] and [rating] and the given location. *)
Definition exampleBody (loc : value) : ReviewBody :=
  {| body_placeId := Some "p9";
     body_rating := Some 5;
     body_comment := None;
     body_placeName := None;
     body_location := loc;
     body_groupId := None |}.

(** The community feed of [exampleDb] with its two reviews of equal
    timestamp in the order 2, 1. *)
Definition communityReversed : list (CommunityRow (option LocationData)) :=
  map (formatCommunity smallAngle alice)
      (rev (communityQuery exampleDb (truthy_id (req_user alice)))).

(** ** The other handlers of the review and group routers *)

(** *** GET /reviews (reviews.ts, lines 356-382): the viewer's own reviews *)

Record OwnRow : Type := {
  own_id : Z;
  own_placeId : string;
  own_placeName : option string;
  own_rating : Z;
  own_comment : option string;
  own_createdAt : Z;
  own_likes : Z
}.

(** [FROM reviews LEFT JOIN review_likes ... WHERE reviews.user_id = uid
    GROUP BY reviews.id] *)
Definition userReviewsQuery (db : Database) (uid : Z) : list OwnRow :=
  map (fun r =>
         {| own_id := review_id r;
            own_placeId := placeId r;
            own_placeName := placeName r;
            own_rating := rating r;
            own_comment := comment r;
            own_createdAt := createdAt r;
            own_likes := Z.of_nat (List.length (likesOf db r)) |})
      (filter (fun r => review_userId r =? uid) (reviews db)).

Definition getUserReviews (db : Database) (user : option Z)
           (reply : Reply (list OwnRow)) : Prop :=
  match truthy_id user with
  | None => reply = Message 401 "message" "Not authenticated"
  | Some uid =>
      exists userReviews,
        orderBy_desc own_createdAt (userReviewsQuery db uid) userReviews
        /\ reply = Json 200 userReviews
  end.

Definition runUserReviews (db : Database) (user : option Z) : Reply (list OwnRow) :=
  match truthy_id user with
  | None => Message 401 "message" "Not authenticated"
  | Some uid => Json 200 (sort_desc own_createdAt (userReviewsQuery db uid))
  end.

(** *** DELETE /reviews/:id (reviews.ts, lines 514-550)

    [id] is the integer that [parseInt(req.params.id)] reads; the
    ownership query throws for an [id] outside [int4].  The likes of the
    review are deleted first, then the review. *)
Definition deleteReview (db : Database) (user : option Z) (id : Z)
  : Reply unit * Database :=
  match truthy_id user with
  | None => (Message 401 "message" "Not authenticated", db)
  | Some uid =>
      if negb (int4 id) then
        (Message 500 "message" "Failed to delete review", db)
      else
        let review :=
          firstn 1 (filter (fun r => (review_id r =? id) && (review_userId r =? uid))
                           (reviews db)) in
        if Nat.eqb (List.length review) 0 then
          (Message 403 "message" "Not authorized to delete this review", db)
        else
          (Empty 204,
           {| users := users db;
              follows := follows db;
              groups := groups db;
              groupMembers := groupMembers db;
              reviews := filter (fun r => negb (review_id r =? id)) (reviews db);
              reviewLikes :=
                filter (fun l => negb (like_reviewId l =? id)) (reviewLikes db);
              reviews_seq := reviews_seq db;
              reviewLikes_seq := reviewLikes_seq db |})
  end.

(** *** The group router (groups.ts)

    Every handler runs after [requireAuth].  [group] is the integer that
    [parseInt(req.params.groupId)] reads; [newId] is the value that the
    [serial] of the table written to yields. *)

Definition with_groupMembers (db : Database) (members : list GroupMember) : Database :=
  {| users := users db;
     follows := follows db;
     groups := groups db;
     groupMembers := members;
     reviews := reviews db;
     reviewLikes := reviewLikes db;
     reviews_seq := reviews_seq db;
     reviewLikes_seq := reviewLikes_seq db |}.

(** [db.insert(groupMembers).values({ groupId, userId, role })]; the
    foreign keys of the table make the insert fail ([None]) when the group
    or the user does not exist. *)
Definition insertMember (db : Database) (m : GroupMember) : option Database :=
  if existsb (fun grp => group_id grp =? member_groupId m) (groups db)
     && existsb (fun u => user_id u =? member_userId m) (users db)
  then Some (with_groupMembers db (groupMembers db ++ [m]))
  else None.

(** POST /groups/:groupId/join (lines 170-200) *)
Definition joinGroup (db : Database) (user : option Z) (group newId : Z)
  : Reply unit * Database :=
  match truthy_id user with
  | None => (Message 401 "message" "Not authenticated", db)
  | Some uid =>
      let existingMember := membership db group uid in
      if Nat.ltb 0 (List.length existingMember) then
        (Message 400 "message" "Already a member of this group", db)
      else
        match insertMember db {| member_id := newId;
                                 member_groupId := group;
                                 member_userId := uid;
                                 member_role := "member" |} with
        | Some db' => (Message 201 "message" "Successfully joined group", db')
        | None => (Message 500 "message" "Failed to join group", db)
        end
  end.

(** DELETE /groups/:groupId/leave (lines 202-218).  The [DELETE]
    statement throws for a [group] outside [int4]. *)
Definition leaveGroup (db : Database) (user : option Z) (group : Z)
  : Reply unit * Database :=
  match truthy_id user with
  | None => (Message 401 "message" "Not authenticated", db)
  | Some uid =>
      if negb (int4 group) then
        (Message 500 "message" "Failed to leave group", db)
      else
        (Empty 204,
         with_groupMembers db
           (filter (fun m => negb ((member_groupId m =? group)
                                   && (member_userId m =? uid)))
                   (groupMembers db)))
  end.

(** POST /groups (lines 43-71), for a request without a description and
    without a file, or with ones that the database and the upload filter
    accept.  [name] is [req.body.name]; the column is a NOT NULL text, and
    [created_by] references [users.id].  The group is inserted first, then
    its creator as a member with the role ['admin']. *)
Definition postGroup (db : Database) (user : option Z) (name : option string)
           (newGroupId newMemberId : Z) : Reply Group * Database :=
  match truthy_id user with
  | None => (Message 401 "message" "Not authenticated", db)
  | Some uid =>
      match name with
      | Some n =>
          if pg_text n && existsb (fun u => user_id u =? uid) (users db) then
            let newGroup := {| group_id := newGroupId; group_name := n |} in
            let db1 :=
              {| users := users db;
                 follows := follows db;
                 groups := groups db ++ [newGroup];
                 groupMembers := groupMembers db;
                 reviews := reviews db;
                 reviewLikes := reviewLikes db;
                 reviews_seq := reviews_seq db;
                 reviewLikes_seq := reviewLikes_seq db |} in
            match insertMember db1 {| member_id := newMemberId;
                                      member_groupId := group_id newGroup;
                                      member_userId := uid;
                                      member_role := "admin" |} with
            | Some db2 => (Json 201 newGroup, db2)
            | None => (Message 500 "message" "Failed to create group", db1)
            end
          else (Message 500 "message" "Failed to create group", db)
      | None => (Message 500 "message" "Failed to create group", db)
      end
  end.

(** *** Group messages (groups.ts, lines 220-293)

    The table [group_messages] is kept beside the database.  In both
    handlers the membership query comes first and throws for a [group]
    outside [int4]. *)

Record GroupMessage : Type := {
  message_id : Z;
  message_groupId : Z;
  message_userId : Z;
  message_content : string;
  message_createdAt : Z
}.

(** A row of the message list, with the columns of the model
    ([users.avatar_url] is not one of them). *)
Record MessageRow : Type := {
  msg_id : Z;
  msg_content : string;
  msg_createdAt : Z;
  msg_username : string
}.

Definition messagesQuery (db : Database) (messages : list GroupMessage) (group : Z)
  : list MessageRow :=
  flat_map
    (fun m =>
       if message_groupId m =? group then
         map (fun u => {| msg_id := message_id m;
                          msg_content := message_content m;
                          msg_createdAt := message_createdAt m;
                          msg_username := username u |})
             (filter (fun u => message_userId m =? user_id u) (users db))
       else [])
    messages.

Definition getMessages (db : Database) (messages : list GroupMessage)
           (user : option Z) (group : Z) (reply : Reply (list MessageRow)) : Prop :=
  match truthy_id user with
  | None => reply = Message 401 "message" "Not authenticated"
  | Some uid =>
      if negb (int4 group) then
        reply = Message 500 "message" "Failed to fetch messages"
      else if Nat.eqb (List.length (membership db group uid)) 0 then
        reply = Message 403 "message" "Not a member of this group"
      else
        exists rows,
          orderBy_desc msg_createdAt (messagesQuery db messages group) rows
          /\ reply = Json 200 rows
  end.

Definition runMessages (db : Database) (messages : list GroupMessage)
           (user : option Z) (group : Z) : Reply (list MessageRow) :=
  match truthy_id user with
  | None => Message 401 "message" "Not authenticated"
  | Some uid =>
      if negb (int4 group) then
        Message 500 "message" "Failed to fetch messages"
      else if Nat.eqb (List.length (membership db group uid)) 0 then
        Message 403 "message" "Not a member of this group"
      else Json 200 (sort_desc msg_createdAt (messagesQuery db messages group))
  end.

(** [content] is [req.body.content]; the column is a NOT NULL text, and
    the table references [groups.id] and [users.id]. *)
Definition postMessage (db : Database) (messages : list GroupMessage)
           (user : option Z) (group : Z) (content : option string) (newId now : Z)
  : Reply GroupMessage * list GroupMessage :=
  match truthy_id user with
  | None => (Message 401 "message" "Not authenticated", messages)
  | Some uid =>
      if negb (int4 group) then
        (Message 500 "message" "Failed to send message", messages)
      else if Nat.eqb (List.length (membership db group uid)) 0 then
        (Message 403 "message" "Not a member of this group", messages)
      else
        match content with
        | Some text =>
            if pg_text text
               && existsb (fun grp => group_id grp =? group) (groups db)
               && existsb (fun u => user_id u =? uid) (users db)
            then
              let newMessage := {| message_id := newId;
                                   message_groupId := group;
                                   message_userId := uid;
                                   message_content := text;
                                   message_createdAt := now |} in
              (Json 201 newMessage, (messages ++ [newMessage])%list)
            else (Message 500 "message" "Failed to send message", messages)
        | None => (Message 500 "message" "Failed to send message", messages)
        end
  end.

(** *** Following and unfollowing (social.ts, lines 187-268)

    [target] is the integer that [parseInt(req.params.userId)] reads.  It
    is compared with the id of the session's user first; the lookup of the
    target user is the first query, and throws for a [target] outside
    [int4]. *)

Definition with_follows (db : Database) (edges : list Follow) : Database :=
  {| users := users db;
     follows := edges;
     groups := groups db;
     groupMembers := groupMembers db;
     reviews := reviews db;
     reviewLikes := reviewLikes db;
     reviews_seq := reviews_seq db;
     reviewLikes_seq := reviewLikes_seq db |}.

(** [db.query.users.findFirst({ where: eq(users.id, id) })] *)
Definition findUser (db : Database) (id : Z) : option User :=
  hd_error (filter (fun u => user_id u =? id) (users db)).

(** [db.query.follows.findFirst({ where: and(eq(followerId, a),
    eq(followingId, b)) })] *)
Definition findFollow (db : Database) (a b : Z) : option Follow :=
  hd_error (filter (fun f => (followerId f =? a) && (followingId f =? b)) (follows db)).

(** POST /social/follow/:userId.  [follows.follower_id] references
    [users.id]. *)
Definition postFollow (db : Database) (user : option Z) (target newId : Z)
  : Reply unit * Database :=
  match user with
  | None => (Message 401 "error" "Not authenticated", db)
  | Some uid =>
      if target =? uid then (Message 400 "error" "Cannot follow yourself", db)
      else if negb (int4 target) then (Message 500 "error" "Failed to follow user", db)
      else
        match findUser db target with
        | None => (Message 404 "error" "User not found", db)
        | Some targetUser =>
            match findFollow db uid target with
            | Some existingFollow =>
                (Message 400 "error" "Already following this user", db)
            | None =>
                if existsb (fun u => user_id u =? uid) (users db) then
                  (Message 200 "message" "Successfully followed user",
                   with_follows db
                     (follows db ++ [ {| follow_id := newId;
                                         followerId := uid;
                                         followingId := target |} ]))
                else (Message 500 "error" "Failed to follow user", db)
            end
        end
  end.

(** POST /social/unfollow/:userId *)
Definition postUnfollow (db : Database) (user : option Z) (target : Z)
  : Reply unit * Database :=
  match user with
  | None => (Message 401 "error" "Not authenticated", db)
  | Some uid =>
      if target =? uid then (Message 400 "error" "Cannot unfollow yourself", db)
      else if negb (int4 target) then (Message 500 "error" "Failed to unfollow user", db)
      else
        match findUser db target with
        | None => (Message 404 "error" "User not found", db)
        | Some targetUser =>
            (Message 200 "message" "Successfully unfollowed user",
             with_follows db
               (filter (fun f => negb ((followerId f =? uid) && (followingId f =? target)))
                       (follows db)))
        end
  end.

(** *** Invariants of the tables *)

Definition pair_eqb (p q : Z * Z) : bool := (fst p =? fst q) && (snd p =? snd q).

Fixpoint distinct_pairs (l : list (Z * Z)) : bool :=
  match l with
  | [] => true
  | p :: rest => negb (existsb (pair_eqb p) rest) && distinct_pairs rest
  end.

(** At most one like row per review and user. *)
Definition unique_likes (db : Database) : bool :=
  distinct_pairs (map (fun l => (like_reviewId l, like_userId l)) (reviewLikes db)).

(** At most one membership row per group and user. *)
Definition unique_members (db : Database) : bool :=
  distinct_pairs (map (fun m => (member_groupId m, member_userId m)) (groupMembers db)).

(** At most one follow row per ordered pair of users. *)
Definition unique_follows (db : Database) : bool :=
  distinct_pairs (map (fun f => (followerId f, followingId f)) (follows db)).

(** Nobody follows themselves. *)
Definition no_self_follow (db : Database) : bool :=
  forallb (fun f => negb (followerId f =? followingId f)) (follows db).

(** Every like row is of a review of the table. *)
Definition likes_have_reviews (db : Database) : bool :=
  forallb (fun l => existsb (fun r => review_id r =? like_reviewId l) (reviews db))
          (reviewLikes db).

(** The role of [user] in [group], when a member. *)
Definition roleOf (db : Database) (group user : Z) : option string :=
  option_map member_role
    (hd_error (filter (fun m => (member_groupId m =? group) && (member_userId m =? user))
                      (groupMembers db))).


(** A request of [user] with no viewer coordinates. *)
Definition requestOf (user : option Z) : FeedRequest :=
  {| req_user := user; query_userLat := None; query_userLng := None |}.

(** A review body for group 1. *)
Definition groupBody : ReviewBody :=
  {| body_placeId := Some "p9";
     body_rating := Some 5;
     body_comment := None;
     body_placeName := None;
     body_location := newYork;
     body_groupId := Some 1 |}.

(** ** Properties of binary64 arithmetic used below *)

Module FloatFacts.

Local Open Scope float_scope.


Lemma binary_round_aux_opp (s : bool) (m e : Z) (l : SpecFloat.location) :
  binary_round_aux prec emax (negb s) m e l
  = SFopp (binary_round_aux prec emax s m e l).
Proof.
  unfold binary_round_aux.
  destruct (shr_fexp prec emax m e l) as [mrs' e'].
  destruct (shr_fexp prec emax _ e' loc_Exact) as [mrs'' e''].
  destruct (shr_m mrs''); try reflexivity.
  destruct (Z.leb e'' (emax - prec)); reflexivity.
Qed.

Lemma binary_round_opp (s : bool) (m : positive) (e : Z) :
  binary_round prec emax (negb s) m e = SFopp (binary_round prec emax s m e).
Proof.
  unfold binary_round.
  destruct (shl_align m e _) as [mz ez]. apply binary_round_aux_opp.
Qed.

Lemma SFopp_involutive (x : spec_float) : SFopp (SFopp x) = x.
Proof. destruct x as [s|s| |s m e]; cbn; now rewrite ?negb_involutive. Qed.

Lemma binary_normalize_opp (m e : Z) :
  m <> 0%Z ->
  binary_normalize prec emax (- m) e false
  = SFopp (binary_normalize prec emax m e false).
Proof.
  destruct m as [|p|p]; intros Hm; [congruence | |]; cbn [Z.opp binary_normalize].
  - apply (binary_round_opp false).
  - change true with (negb false).
    now rewrite (binary_round_opp false), SFopp_involutive.
Qed.

(** Multiplication is commutative, bit for bit. *)
Lemma fmul_comm (x y : float) : x * y = y * x.
Proof.
  apply Prim2SF_inj. rewrite !mul_spec. unfold SF64mul.
  destruct (Prim2SF x) as [sx|sx| |sx mx ex], (Prim2SF y) as [sy|sy| |sy my ey];
    cbn; rewrite ?(xorb_comm sx sy); try reflexivity.
  now rewrite (Pos.mul_comm mx my), (Z.add_comm ex ey).
Qed.

Lemma fmul_opp_opp (x y : float) : (- x) * (- y) = x * y.
Proof.
  apply Prim2SF_inj. rewrite !mul_spec, !opp_spec. unfold SF64mul.
  destruct (Prim2SF x) as [sx|sx| |sx mx ex], (Prim2SF y) as [sy|sy| |sy my ey];
    cbn; try reflexivity;
    now replace (xorb (negb sx) (negb sy)) with (xorb sx sy) by (now destruct sx, sy).
Qed.

Lemma fmul_opp_r (x y : float) : x * (- y) = - (x * y).
Proof.
  apply Prim2SF_inj. rewrite opp_spec, !mul_spec, opp_spec. unfold SF64mul.
  destruct (Prim2SF x) as [sx|sx| |sx mx ex], (Prim2SF y) as [sy|sy| |sy my ey];
    cbn; try reflexivity;
    replace (xorb sx (negb sy)) with (negb (xorb sx sy)) by (now destruct sx, sy);
    try reflexivity.
  apply binary_round_aux_opp.
Qed.

Lemma fdiv_opp_l (x y : float) : (- x) / y = - (x / y).
Proof.
  apply Prim2SF_inj. rewrite opp_spec, !div_spec, opp_spec. unfold SF64div.
  destruct (Prim2SF x) as [sx|sx| |sx mx ex], (Prim2SF y) as [sy|sy| |sy my ey];
    cbn [SFopp SFdiv]; try reflexivity;
    replace (xorb (negb sx) sy) with (negb (xorb sx sy)) by (now destruct sx, sy);
    try reflexivity.
  destruct (SFdiv_core_binary prec emax (Zpos mx) ex (Zpos my) ey) as [[mz ez] lz].
  apply binary_round_aux_opp.
Qed.

Lemma binary_normalize_sub_swap (a b e : Z) :
  binary_normalize prec emax (b - a) e false
  = SFopp (binary_normalize prec emax (a - b) e false)
  \/ binary_normalize prec emax (b - a) e false
     = binary_normalize prec emax (a - b) e false.
Proof.
  destruct (Z.eq_dec (a - b) 0) as [E|E].
  - right. replace (b - a)%Z with 0%Z by lia. now rewrite E.
  - left. replace (b - a)%Z with (- (a - b))%Z by lia.
    now apply binary_normalize_opp.
Qed.

(** Exchanging the operands of a subtraction negates the difference,
    except that both differences of equal operands are [+0]. *)
Lemma SFsub_swap (x y : spec_float) :
  SF64sub y x = SFopp (SF64sub x y) \/ SF64sub y x = SF64sub x y.
Proof.
  unfold SF64sub.
  destruct x as [sx|sx| |sx mx ex], y as [sy|sy| |sy my ey].
  16: {
    cbv beta iota zeta delta [SFsub].
    replace (Z.min ey ex) with (Z.min ex ey) by apply Z.min_comm.
    apply binary_normalize_sub_swap. }
  all: try (destruct sx); try (destruct sy); cbn; auto.
Qed.

Lemma fsub_swap (x y : float) : y - x = - (x - y) \/ y - x = x - y.
Proof.
  destruct (SFsub_swap (Prim2SF x) (Prim2SF y)) as [H|H]; [left|right];
    apply Prim2SF_inj; rewrite ?opp_spec, !sub_spec; exact H.
Qed.

End FloatFacts.

(** ** The distance annotation *)

(** ** Rounding to one decimal place *)






Section Distance.

Variable P : Platform.

Local Open Scope float_scope.

(** The validation accepts every number that is not [NaN]. *)
Lemma calculateDistance_numbers (lat1 lon1 lat2 lon2 : float) :
  is_nan lat1 = false -> is_nan lon1 = false ->
  is_nan lat2 = false -> is_nan lon2 = false ->
  calculateDistance P (JNum lat1) (JNum lon1) (JNum lat2) (JNum lon2)
  = Some (toFixed1 (haversine_km P lat1 lon1 lat2 lon2)).
Proof.
  intros H1 H2 H3 H4. unfold calculateDistance, isNaN.
  cbn [existsb ToNumber is_undefined is_null orb].
  rewrite H1, H2, H3, H4. reflexivity.
Qed.


(** The value of the formula is [NaN] when rounding makes [a] exceed 1,
    which happens near antipodal points: between (14.7, 8) and
    (-14.7, -172), with the correctly rounded sines and cosines of the four
    angles, [a] is [1 + 2^-52], [sqrt (1 - a)] is [NaN], and [NaN] is what
    the code returns. *)
Lemma calculateDistance_antipodal_NaN :
  Math_sin P (-0x1.06b88e5224d3fp-2) = -0x1.03d91f645e206p-2 ->
  Math_sin P (-0x1.921fb54442d18p+0) = -1 ->
  Math_cos P 0x1.06b88e5224d3fp-2 = 0x1.ef3db8094bad0p-1 ->
  Math_cos P (-0x1.06b88e5224d3fp-2) = 0x1.ef3db8094bad0p-1 ->
  Math_atan2 P 1 nan = nan ->
  calculateDistance P (JNum 14.7) (JNum 8) (JNum (-14.7)) (JNum (-172)) = Some nan.
Proof.
  intros Hs1 Hs2 Hc1 Hc2 Hatan.
  rewrite calculateDistance_numbers by reflexivity.
  unfold haversine_km, sq.
  replace ((radians (-14.7) - radians 14.7) / 2) with (-0x1.06b88e5224d3fp-2)
    by (vm_compute; reflexivity).
  replace ((radians (-172) - radians 8) / 2) with (-0x1.921fb54442d18p+0)
    by (vm_compute; reflexivity).
  replace (radians 14.7) with 0x1.06b88e5224d3fp-2 by (vm_compute; reflexivity).
  replace (radians (-14.7)) with (-0x1.06b88e5224d3fp-2) by (vm_compute; reflexivity).
  rewrite Hs1, Hs2, Hc1, Hc2.
  cbv zeta.
  replace (sqrt _) with 1 by (vm_compute; reflexivity).
  replace (sqrt _) with nan by (vm_compute; reflexivity).
  rewrite Hatan. vm_compute. reflexivity.
Qed.

(** A coordinate that is [undefined], [null] or converts to [NaN] makes
    the result [undefined]. *)
Lemma calculateDistance_invalid (lat1 lon1 lat2 lon2 : value) :
  Exists (fun c => is_undefined c = true \/ is_null c = true \/ isNaN P c = true)
         [lat1; lon1; lat2; lon2] ->
  calculateDistance P lat1 lon1 lat2 lon2 = None.
Proof.
  intros H. unfold calculateDistance.
  replace (existsb _ _) with true; [reflexivity|].
  symmetry. apply existsb_exists. apply Exists_exists in H.
  destruct H as (c & Hin & Hc). exists c. split; [exact Hin|].
  destruct Hc as [->|[->| ->]]; now rewrite ?orb_true_r.
Qed.

(** An infinite coordinate passes the validation: the result is a number,
    not [undefined]. *)
Lemma calculateDistance_infinite (lon1 lat2 lon2 : float) :
  is_nan lon1 = false -> is_nan lat2 = false -> is_nan lon2 = false ->
  calculateDistance P (JNum infinity) (JNum lon1) (JNum lat2) (JNum lon2)
  = Some (toFixed1 (haversine_km P infinity lon1 lat2 lon2)).
Proof. intros. now apply calculateDistance_numbers. Qed.

(** C2: at [(Infinity, 0, 0, 0)] the validation lets the coordinates
    through and the code returns a number instead of [undefined]. *)
Theorem calculateDistance_infinity_returns_number :
  calculateDistance P (JNum infinity) (JNum 0) (JNum 0) (JNum 0)
  = Some (toFixed1 (haversine_km P infinity 0 0 0))
  /\ calculateDistance P (JNum infinity) (JNum 0) (JNum 0) (JNum 0) <> None.
Proof.
  rewrite calculateDistance_infinite by reflexivity. split; [reflexivity | discriminate].
Qed.

(** With the results ECMAScript fixes for [Math.sin] at an infinity and
    for [Math.atan2] at [NaN], that number is [NaN]. *)
Lemma calculateDistance_infinity_NaN :
  Math_sin P neg_infinity = nan ->
  Math_atan2 P nan nan = nan ->
  calculateDistance P (JNum infinity) (JNum 0) (JNum 0) (JNum 0) = Some nan.
Proof.
  intros Hsin Hatan. rewrite calculateDistance_infinite by reflexivity.
  unfold haversine_km.
  replace ((radians 0 - radians infinity) / 2) with neg_infinity
    by (vm_compute; reflexivity).
  rewrite Hsin.
  change (nan * nan) with nan.
  assert (Hn : forall t, nan + t = nan).
  { intros u. apply Prim2SF_inj. rewrite add_spec.
    change (Prim2SF nan) with S754_nan. reflexivity. }
  rewrite Hn.
  change (sqrt nan) with nan.
  assert (Hs : 1 - nan = nan).
  { apply Prim2SF_inj. rewrite sub_spec.
    change (Prim2SF nan) with S754_nan. now destruct (Prim2SF 1). }
  rewrite Hs. change (sqrt nan) with nan. rewrite Hatan.
  vm_compute. reflexivity.
Qed.

(** The feeds pass [parseFloat] of the query string on, so such a
    coordinate reaches [calculateDistance] and the number is attached to
    the location as its distance. *)
Lemma processLocation_infinite_viewer :
  exists l,
    processLocation P newYork (JNum infinity) (JNum 0) = Some l
    /\ distance l <> None.
Proof.
  unfold processLocation. cbn -[calculateDistance].
  rewrite calculateDistance_infinite by reflexivity.
  eexists. split; [reflexivity | discriminate].
Qed.

(** *** Symmetry *)

Hypothesis Math_sin_odd : forall x, Math_sin P (- x) = - Math_sin P x.

Lemma sin_half_swap (c x y : float) :
  c * Math_sin P ((y - x) / 2) * Math_sin P ((y - x) / 2)
  = c * Math_sin P ((x - y) / 2) * Math_sin P ((x - y) / 2).
Proof.
  destruct (FloatFacts.fsub_swap x y) as [E|E]; rewrite E; [|reflexivity].
  rewrite FloatFacts.fdiv_opp_l, Math_sin_odd.
  now rewrite (FloatFacts.fmul_opp_r c), FloatFacts.fmul_opp_opp.
Qed.

Lemma sin_half_sq_swap (x y : float) :
  Math_sin P ((y - x) / 2) * Math_sin P ((y - x) / 2)
  = Math_sin P ((x - y) / 2) * Math_sin P ((x - y) / 2).
Proof.
  destruct (FloatFacts.fsub_swap x y) as [E|E]; rewrite E; [|reflexivity].
  rewrite FloatFacts.fdiv_opp_l, Math_sin_odd.
  apply FloatFacts.fmul_opp_opp.
Qed.

(** C3: the distance is symmetric in its two endpoints. *)
Theorem calculateDistance_symmetric (lat1 lon1 lat2 lon2 : value) :
  calculateDistance P lat1 lon1 lat2 lon2
  = calculateDistance P lat2 lon2 lat1 lon1.
Proof.
  unfold calculateDistance. cbn [existsb].
  set (b1 := (is_undefined lat1 || is_null lat1 || isNaN P lat1)%bool).
  set (b2 := (is_undefined lon1 || is_null lon1 || isNaN P lon1)%bool).
  set (b3 := (is_undefined lat2 || is_null lat2 || isNaN P lat2)%bool).
  set (b4 := (is_undefined lon2 || is_null lon2 || isNaN P lon2)%bool).
  replace (b3 || (b4 || (b1 || (b2 || false))))%bool
    with (b1 || (b2 || (b3 || (b4 || false))))%bool
    by (destruct b1, b2, b3, b4; reflexivity).
  destruct (b1 || (b2 || (b3 || (b4 || false))))%bool; [reflexivity|].
  cbv zeta.
  rewrite (sin_half_sq_swap (ToNumber P lat2 * Math_PI / 180)).
  rewrite (FloatFacts.fmul_comm (Math_cos P (ToNumber P lat2 * Math_PI / 180))).
  now rewrite (sin_half_swap _ (ToNumber P lon2 * Math_PI / 180)).
Qed.

End Distance.

(** ** [ORDER BY]: admissible results *)

Section Ordering.

Context {A : Type} (key : A -> Z).

Lemma insert_desc_perm (x : A) (l : list A) :
  Permutation (x :: l) (insert_desc key x l).
Proof.
  induction l as [|y rest IH]; cbn; [reflexivity|].
  destruct (key y <=? key x); [reflexivity|].
  rewrite perm_swap. now apply perm_skip.
Qed.

Lemma insert_desc_sorted (x : A) (l : list A) :
  StronglySorted (fun a b => key b <= key a) l ->
  StronglySorted (fun a b => key b <= key a) (insert_desc key x l).
Proof.
  induction 1 as [|y rest Hs IH Hall]; cbn.
  - repeat constructor.
  - destruct (Z.leb_spec (key y) (key x)) as [Hlt|Hge].
    + constructor; [now constructor|].
      constructor; [lia|].
      eapply Forall_impl; [|exact Hall]. cbn. intros; lia.
    + constructor; [exact IH|].
      eapply Permutation_Forall; [apply insert_desc_perm|].
      constructor; [lia | exact Hall].
Qed.

(** Insertion sort returns an admissible result: every query has one. *)
Lemma sort_desc_admissible (l : list A) : orderBy_desc key l (sort_desc key l).
Proof.
  split.
  - induction l as [|x rest IH]; cbn; [constructor|].
    etransitivity; [apply perm_skip, IH | apply insert_desc_perm].
  - induction l as [|x rest IH]; cbn; [constructor|].
    now apply insert_desc_sorted.
Qed.

Lemma orderBy_desc_In (rows out : list A) (x : A) :
  orderBy_desc key rows out -> (In x out <-> In x rows).
Proof.
  intros [Hp _]. split; apply Permutation_in; [now symmetry | exact Hp].
Qed.

Lemma orderBy_desc_map {B : Type} (f : A -> B) (rows out : list A) :
  orderBy_desc key rows out -> Permutation (map f out) (map f rows).
Proof. intros [Hp _]. symmetry. now apply Permutation_map. Qed.

End Ordering.

Lemma StronglySorted_map {A B : Type} (f : A -> B) (R : B -> B -> Prop) (l : list A) :
  StronglySorted (fun a b => R (f a) (f b)) l -> StronglySorted R (map f l).
Proof.
  induction 1 as [|x rest Hs IH Hall]; cbn; constructor; [exact IH|].
  apply Forall_map. exact Hall.
Qed.

(** ** Schema constraints and the joins *)

Lemma filter_none {A : Type} (f : A -> bool) (l : list A) :
  existsb f l = false -> filter f l = [].
Proof.
  induction l as [|x rest IH]; cbn; [reflexivity|].
  destruct (f x); cbn; [discriminate | exact IH].
Qed.

Lemma filter_none_inv {A : Type} (f : A -> bool) (l : list A) :
  filter f l = [] -> existsb f l = false.
Proof.
  induction l as [|x rest IH]; cbn; [reflexivity|].
  destruct (f x); cbn; [discriminate | exact IH].
Qed.

Lemma filter_all {A : Type} (f : A -> bool) (l : list A) :
  forallb f l = true -> filter f l = l.
Proof.
  induction l as [|x rest IH]; cbn; [reflexivity|].
  destruct (f x); cbn; [|discriminate]. intros H. now rewrite IH.
Qed.

Lemma existsb_map {A B : Type} (f : A -> B) (p : B -> bool) (l : list A) :
  existsb p (map f l) = existsb (fun x => p (f x)) l.
Proof. induction l as [|x rest IH]; cbn; [reflexivity | now rewrite IH]. Qed.

(** Under a primary key, a key that occurs selects exactly one row. *)
Lemma primary_key_lookup (us : list User) (k : Z) :
  distinct (map user_id us) = true ->
  existsb (fun u => user_id u =? k) us = true ->
  exists u, filter (fun u => k =? user_id u) us = [u].
Proof.
  induction us as [|u0 rest IH]; cbn; [discriminate|].
  intros Hd Hex. apply andb_true_iff in Hd. destruct Hd as [Hfresh Hd].
  rewrite (Z.eqb_sym k). destruct (Z.eqb_spec (user_id u0) k) as [E|Hne].
  - exists u0. f_equal. apply filter_none.
    apply negb_true_iff in Hfresh. rewrite existsb_map, E in Hfresh.
    exact Hfresh.
  - cbn in Hex. now apply IH.
Qed.

Lemma authors_single (db : Database) (r : Review) :
  schema_ok db = true -> In r (reviews db) -> exists u, authors db r = [u].
Proof.
  unfold schema_ok. intros H Hin. apply andb_true_iff in H. destruct H as [H Hfk].
  apply andb_true_iff in H. destruct H as [Hpk _].
  apply primary_key_lookup; [exact Hpk|].
  rewrite forallb_forall in Hfk. now apply Hfk.
Qed.

Lemma map_flat_map_filter {X Y : Type} (f : X -> list Y) (h : Y -> Z) (k : X -> Z)
      (c : X -> bool) (l : list X) :
  (forall x, In x l -> map h (f x) = if c x then [k x] else []) ->
  map h (flat_map f l) = map k (filter c l).
Proof.
  induction l as [|x rest IH]; cbn; intros H; [reflexivity|].
  rewrite map_app, H by now left.
  rewrite IH by (intros; apply H; now right).
  now destruct (c x).
Qed.

(** ** The feeds *)

Section Feeds.

Variable P : Platform.

Lemma formatCommunity_id (req : FeedRequest) (rows : list (CommunityRow value)) :
  map community_id (map (formatCommunity P req) rows)
  = map (fun row => col_id (liked_cols (community_cols row))) rows.
Proof. rewrite map_map. reflexivity. Qed.

Lemma communityQuery_ids (db : Database) (userId : option Z) :
  schema_ok db = true ->
  map (fun row => col_id (liked_cols (community_cols row))) (communityQuery db userId)
  = map review_id (filter isPublic (reviews db)).
Proof.
  intros Hok. unfold communityQuery. apply map_flat_map_filter.
  intros r Hin. destruct (authors_single db r Hok Hin) as [u ->].
  now destruct (isPublic r).
Qed.

Lemma communityQuery_sound (db : Database) (userId : option Z)
      (row : CommunityRow value) :
  In row (communityQuery db userId) ->
  exists r, In r (reviews db) /\ isPublic r = true
            /\ col_id (liked_cols (community_cols row)) = review_id r
            /\ isLiked (community_cols row) = isLikedColumn db r userId.
Proof.
  unfold communityQuery. rewrite in_flat_map. intros (r & Hin & Hrow).
  exists r. destruct (isPublic r); [|contradiction].
  apply in_map_iff in Hrow. destruct Hrow as (u & <- & _). auto.
Qed.

(** C4, as amended: without a session the community feed answers 401;
    with one it returns exactly the public reviews, each with [isLiked]
    telling whether the viewer has a like row for it. *)
Theorem getCommunity_requires_session (db : Database) (req : FeedRequest)
        (reply : Reply (list (CommunityRow (option LocationData)))) :
  schema_ok db = true ->
  getCommunity P db req reply ->
  match req_user req with
  | None => reply = Message 401 "message" "Not authenticated"
  | Some viewer =>
      exists rows,
        reply = Json 200 rows
        /\ Permutation (map community_id rows)
                       (map review_id (filter isPublic (reviews db)))
        /\ Forall (fun row =>
                     isLiked (community_cols row)
                     = negb (viewer =? 0) && likeExists db (community_id row) viewer)
                  rows
  end.
Proof.
  intros Hok. unfold getCommunity.
  destruct (req_user req) as [viewer|]; cbn [isAuthenticated negb].
  2: { intros ->. reflexivity. }
  intros (raw & Hord & ->). eexists. split; [reflexivity|]. split.
  - rewrite formatCommunity_id,
      <- (communityQuery_ids db (truthy_id (Some viewer)) Hok).
    exact (orderBy_desc_map _ _ _ _ Hord).
  - apply Forall_map. apply Forall_forall. intros row Hin.
    apply (orderBy_desc_In _ _ _ _ Hord) in Hin.
    apply communityQuery_sound in Hin. destruct Hin as (r & _ & _ & Hid & Hl).
    unfold community_id. cbn [formatCommunity formatLiked community_cols liked_cols
                              isLiked formatCols set_location col_id].
    rewrite Hl, Hid. cbn [truthy_id].
    now destruct (viewer =? 0).
Qed.

(** *** The following feed *)

Lemma filter_nonempty {A : Type} (f : A -> bool) (l : list A) :
  negb (Nat.eqb (List.length (filter f l)) 0) = existsb f l.
Proof.
  induction l as [|x rest IH]; cbn; [reflexivity|].
  destruct (f x); cbn; [reflexivity | exact IH].
Qed.

Lemma followEdges_followed (db : Database) (viewer : Z) (r : Review) :
  negb (Nat.eqb (List.length (followEdges db viewer r)) 0)
  = followed db viewer (review_userId r).
Proof.
  unfold followEdges, followed. rewrite filter_nonempty.
  induction (follows db) as [|f rest IH]; cbn; [reflexivity|].
  rewrite IH, (Z.eqb_sym (review_userId r)). f_equal. apply andb_comm.
Qed.

Lemma followingQuery_ids (db : Database) (viewer : Z) :
  schema_ok db = true ->
  map (fun row : LikedRow value => col_id (liked_cols row)) (followingQuery db viewer)
  = map review_id
        (filter (fun r => isPublic r && followed db viewer (review_userId r))
                (reviews db)).
Proof.
  intros Hok. unfold followingQuery. apply map_flat_map_filter.
  intros r Hin. destruct (authors_single db r Hok Hin) as [u ->].
  cbn [flat_map]. rewrite app_nil_r, followEdges_followed.
  now destruct (isPublic r && followed db viewer (review_userId r)).
Qed.

Lemma followingQuery_sound (db : Database) (viewer : Z) (row : LikedRow value) :
  In row (followingQuery db viewer) ->
  exists r, In r (reviews db)
            /\ col_id (liked_cols row) = review_id r
            /\ isPublic r = true
            /\ followed db viewer (review_userId r) = true.
Proof.
  unfold followingQuery. rewrite in_flat_map. intros (r & Hin & Hrow).
  rewrite in_flat_map in Hrow. destruct Hrow as (u & _ & Hrow).
  rewrite followEdges_followed in Hrow.
  destruct (isPublic r) eqn:Hpub, (followed db viewer (review_userId r)) eqn:Hf;
    cbn in Hrow; try contradiction.
  destruct Hrow as [<-|[]]. exists r. auto.
Qed.

Lemma followed_edge (db : Database) (viewer author : Z) :
  followed db viewer author = true ->
  exists f, In f (follows db) /\ followerId f = viewer /\ followingId f = author.
Proof.
  unfold followed. rewrite existsb_exists. intros (f & Hin & H).
  apply andb_true_iff in H. destruct H as [H1 H2].
  exists f. repeat split; [exact Hin | now apply Z.eqb_eq | now apply Z.eqb_eq].
Qed.

(** C5: every review of the following feed is public and written by a
    user the viewer follows, and the feed holds exactly those reviews. *)
Theorem getFollowing_scope (db : Database) (req : FeedRequest) (viewer : Z)
        (reply : Reply (list (LikedRow (option LocationData)))) :
  schema_ok db = true ->
  truthy_id (req_user req) = Some viewer ->
  getFollowing P db req reply ->
  exists rows,
    reply = Json 200 rows
    /\ Forall (fun row =>
                 exists r, In r (reviews db)
                           /\ liked_id row = review_id r
                           /\ isPublic r = true
                           /\ exists f, In f (follows db)
                                        /\ followerId f = viewer
                                        /\ followingId f = review_userId r)
              rows
    /\ Permutation
         (map liked_id rows)
         (map review_id
              (filter (fun r => isPublic r && followed db viewer (review_userId r))
                      (reviews db))).
Proof.
  intros Hok Hv. unfold getFollowing. rewrite Hv.
  intros (raw & Hord & ->). eexists. split; [reflexivity|]. split.
  - apply Forall_map. apply Forall_forall. intros row Hin.
    apply (orderBy_desc_In _ _ _ _ Hord) in Hin.
    apply followingQuery_sound in Hin.
    destruct Hin as (r & Hr & Hid & Hpub & Hf).
    exists r. repeat split; try assumption. now apply followed_edge.
  - rewrite <- (followingQuery_ids db viewer Hok), map_map.
    exact (orderBy_desc_map _ _ _ _ Hord).
Qed.

(** *** The group feed *)

Lemma membership_empty (db : Database) (g user : Z) :
  Nat.eqb (List.length (membership db g user)) 0 = negb (isMember db g user).
Proof.
  unfold membership, isMember.
  induction (groupMembers db) as [|m rest IH]; cbn; [reflexivity|].
  destruct ((member_groupId m =? g) && (member_userId m =? user)); cbn;
    [reflexivity | exact IH].
Qed.

Lemma groupQuery_ids (db : Database) (g : Z) :
  schema_ok db = true ->
  map group_row_id (groupQuery db g) = map review_id (filter (inGroup g) (reviews db)).
Proof.
  intros Hok. unfold groupQuery. apply map_flat_map_filter.
  intros r Hin. destruct (authors_single db r Hok Hin) as [u ->].
  unfold inGroup. destruct (groupId r) as [g'|]; [|reflexivity].
  now destruct (g' =? g).
Qed.

(** The membership query of the group routes fails for a group id that
    the [integer] column cannot hold. *)
Lemma getGroupReviews_out_of_range (db : Database) (req : FeedRequest)
      (group viewer : Z) (reply : Reply (list GroupRow)) :
  truthy_id (req_user req) = Some viewer ->
  int4 group = false ->
  getGroupReviews db req group reply ->
  reply = Message 500 "message" "Failed to fetch group reviews".
Proof.
  intros Hv Hr. unfold getGroupReviews. now rewrite Hv, Hr.
Qed.

(** C6: for a group id of the [integer] column, a member of the group
    gets exactly the reviews whose [groupId] is the group, public or not;
    anyone else gets 403 and no review. *)
Theorem getGroupReviews_members_only (db : Database) (req : FeedRequest)
        (group viewer : Z) (reply : Reply (list GroupRow)) :
  schema_ok db = true ->
  truthy_id (req_user req) = Some viewer ->
  int4 group = true ->
  getGroupReviews db req group reply ->
  if isMember db group viewer then
    exists rows,
      reply = Json 200 rows
      /\ Permutation (map group_row_id rows)
                     (map review_id (filter (inGroup group) (reviews db)))
  else reply = Message 403 "message" "Not a member of this group".
Proof.
  intros Hok Hv Hr. unfold getGroupReviews. rewrite Hv, Hr, membership_empty.
  cbn [negb].
  destruct (isMember db group viewer); cbn [negb]; [|trivial].
  intros (rows & Hord & ->). exists rows. split; [reflexivity|].
  rewrite <- (groupQuery_ids db group Hok).
  exact (orderBy_desc_map _ _ _ _ Hord).
Qed.

(** *** Order of the feeds *)

Lemma orderBy_desc_newest_first {A B : Type} (key : A -> Z) (key' : B -> Z)
      (f : A -> B) (rows out : list A) (status : Z) :
  (forall a, key' (f a) = key a) ->
  orderBy_desc key rows out ->
  newest_first key' (Json status (map f out)).
Proof.
  intros Hk [_ Hs]. cbn. apply StronglySorted_map.
  eapply StronglySorted_ind with (P := fun l => StronglySorted _ l);
    [constructor | | exact Hs].
  intros a l Hl IH Hall. constructor; [exact IH|].
  eapply Forall_impl; [|exact Hall]. intros b. cbn. now rewrite !Hk.
Qed.

(** C7, as amended: every feed is ordered newest first by [createdAt];
    the order of reviews with equal timestamps is whatever the database
    returns. *)
Theorem feeds_newest_first (db : Database) (req : FeedRequest)
        (place : string) (group : Z)
        (community : Reply (list (CommunityRow (option LocationData))))
        (following byPlace : Reply (list (LikedRow (option LocationData))))
        (byGroup : Reply (list GroupRow)) :
  getCommunity P db req community ->
  getFollowing P db req following ->
  getPlace P db req place byPlace ->
  getGroupReviews db req group byGroup ->
  newest_first (fun row => col_createdAt (liked_cols (community_cols row))) community
  /\ newest_first (fun row => col_createdAt (liked_cols row)) following
  /\ newest_first (fun row => col_createdAt (liked_cols row)) byPlace
  /\ newest_first (fun row => col_createdAt (group_cols row)) byGroup.
Proof.
  unfold getCommunity, getFollowing, getPlace, getGroupReviews.
  intros Hc Hf Hp Hg. repeat split.
  - destruct (negb (isAuthenticated (req_user req))); [now subst|].
    destruct Hc as (rows & Hord & ->).
    eapply orderBy_desc_newest_first; [|exact Hord]. reflexivity.
  - destruct (truthy_id (req_user req)); [|now subst].
    destruct Hf as (rows & Hord & ->).
    eapply orderBy_desc_newest_first; [|exact Hord]. reflexivity.
  - destruct (truthy_id (req_user req)); [|now subst].
    destruct (negb (pg_text place)); [now subst|].
    destruct Hp as (rows & Hord & ->).
    eapply orderBy_desc_newest_first; [|exact Hord]. reflexivity.
  - destruct (truthy_id (req_user req)); [|now subst].
    destruct (negb (int4 group)); [now subst|].
    destruct (Nat.eqb _ 0); [now subst|].
    destruct Hg as (rows & Hord & ->). exact (proj2 Hord).
Qed.

(** *** Every feed request has a reply *)

Lemma runCommunity_admissible (db : Database) (req : FeedRequest) :
  getCommunity P db req (runCommunity P db req).
Proof.
  unfold getCommunity, runCommunity.
  destruct (negb (isAuthenticated (req_user req))); [reflexivity|].
  eexists. split; [apply sort_desc_admissible | reflexivity].
Qed.

Lemma runFollowing_admissible (db : Database) (req : FeedRequest) :
  getFollowing P db req (runFollowing P db req).
Proof.
  unfold getFollowing, runFollowing.
  destruct (truthy_id (req_user req)); [|reflexivity].
  eexists. split; [apply sort_desc_admissible | reflexivity].
Qed.

Lemma runPlace_admissible (db : Database) (req : FeedRequest) (place : string) :
  getPlace P db req place (runPlace P db req place).
Proof.
  unfold getPlace, runPlace.
  destruct (truthy_id (req_user req)); [|reflexivity].
  destruct (negb (pg_text place)); [reflexivity|].
  eexists. split; [apply sort_desc_admissible | reflexivity].
Qed.

Lemma runGroupReviews_admissible (db : Database) (req : FeedRequest) (group : Z) :
  getGroupReviews db req group (runGroupReviews db req group).
Proof.
  unfold getGroupReviews, runGroupReviews.
  destruct (truthy_id (req_user req)); [|reflexivity].
  destruct (negb (int4 group)); [reflexivity|].
  destruct (Nat.eqb _ 0); [reflexivity|].
  eexists. split; [apply sort_desc_admissible | reflexivity].
Qed.

End Feeds.

(** ** Likes *)

Section Likes.

Lemma existingLike_found (db : Database) (reviewId uid : Z) :
  Nat.ltb 0 (List.length
               (firstn 1 (filter (fun l => (like_reviewId l =? reviewId)
                                           && (like_userId l =? uid))
                                 (reviewLikes db))))
  = likeExists db reviewId uid.
Proof.
  unfold likeExists.
  induction (reviewLikes db) as [|l rest IH]; cbn; [reflexivity|].
  destruct ((like_reviewId l =? reviewId) && (like_userId l =? uid)); cbn;
    [reflexivity | exact IH].
Qed.

Lemma truthy_id_nonzero (uid : Z) : uid <> 0 -> truthy_id (Some uid) = Some uid.
Proof. intros H. cbn. now destruct (Z.eqb_spec uid 0). Qed.

Lemma filter_negb_none {A : Type} (f : A -> bool) (l : list A) :
  existsb f l = false -> filter (fun x => negb (f x)) l = l.
Proof.
  induction l as [|x rest IH]; cbn; [reflexivity|].
  destruct (f x); cbn; [discriminate|]. intros H. now rewrite IH.
Qed.

Lemma insertLike_likeExists (db db' : Database) (reviewId uid now : Z) :
  insertLike db reviewId uid now = Some db' -> likeExists db' reviewId uid = true.
Proof.
  unfold insertLike. destruct (_ && _); [|discriminate].
  intros [= <-]. unfold likeExists. cbn [reviewLikes].
  rewrite existsb_app. cbn. rewrite !Z.eqb_refl. apply orb_true_r.
Qed.

(** C8: for a review id of the [integer] column, liking a review that
    is already liked answers 400 and changes no row, and unliking a review
    that is not liked answers 204 and changes no row; after a like that
    succeeded a second like is refused and the count has grown by one.  For
    an id outside the column's range both requests answer 500 and change
    no row. *)
Theorem like_twice_unlike_twice (db : Database) (uid reviewId now : Z) :
  uid <> 0 ->
  (int4 reviewId = true ->
   likeExists db reviewId uid = true ->
   postLike db (Some uid) reviewId now
   = (Message 400 "message" "Already liked this review", db))
  /\ (forall db',
         postLike db (Some uid) reviewId now
         = (Message 201 "message" "Review liked successfully", db') ->
         forall later,
           postLike db' (Some uid) reviewId later
           = (Message 400 "message" "Already liked this review", db')
           /\ likesOfReview db' reviewId = likesOfReview db reviewId + 1)
  /\ (int4 reviewId = true ->
      likeExists db reviewId uid = false ->
      deleteLike db (Some uid) reviewId = (Empty 204, db))
  /\ (int4 reviewId = false ->
      postLike db (Some uid) reviewId now
      = (Message 500 "message" "Failed to like review", db)
      /\ deleteLike db (Some uid) reviewId
         = (Message 500 "message" "Failed to unlike review", db)).
Proof.
  intros Hid. split; [|split; [|split]].
  - intros Hr Hl. unfold postLike.
    now rewrite (truthy_id_nonzero uid Hid), Hr, existingLike_found, Hl.
  - intros db' Hfirst later. revert Hfirst. unfold postLike at 1.
    rewrite (truthy_id_nonzero uid Hid).
    destruct (int4 reviewId) eqn:Hr; cbn [negb]; [|discriminate].
    rewrite existingLike_found.
    destruct (likeExists db reviewId uid); [discriminate|].
    destruct (insertLike db reviewId uid now) as [db''|] eqn:Hins; [|discriminate].
    intros [= <-]. split.
    + unfold postLike.
      rewrite (truthy_id_nonzero uid Hid), Hr, existingLike_found.
      now rewrite (insertLike_likeExists _ _ _ _ _ Hins).
    + revert Hins. unfold insertLike. destruct (_ && _); [|discriminate].
      intros [= <-]. unfold likesOfReview. cbn [reviewLikes].
      rewrite filter_app, length_app. cbn. rewrite Z.eqb_refl. cbn. lia.
  - intros Hr Hl. unfold deleteLike. rewrite (truthy_id_nonzero uid Hid), Hr.
    cbn [negb]. f_equal. rewrite filter_negb_none by exact Hl. now destruct db.
  - intros Hr. unfold postLike, deleteLike.
    now rewrite (truthy_id_nonzero uid Hid), Hr.
Qed.

End Likes.

(** ** Locations and review creation *)

Section Create.

Variable P : Platform.

Lemma get_truthy_base (v : value) (k : string) :
  ToBoolean v = true -> get v k = Some (get_opt v k).
Proof. destruct v; cbn; try discriminate; reflexivity. Qed.

Lemma get_truthy_field (v : value) (k : string) :
  ToBoolean (get_opt v k) = true -> get v k = Some (get_opt v k).
Proof. destruct v; cbn; try discriminate; reflexivity. Qed.

(** [processLocation] returns [null] exactly when one of its two checks
    fails. *)
Lemma processLocation_null (location userLat userLng : value) :
  hasCoordinates location = false ->
  processLocation P location userLat userLng = None.
Proof.
  unfold hasCoordinates, processLocation.
  destruct (ToBoolean location), (typeof_object location); cbn; try reflexivity.
  destruct (ToBoolean (get_opt (get_opt location "coordinates") "lat")),
           (ToBoolean (get_opt (get_opt location "coordinates") "lng"));
    cbn; try reflexivity; discriminate.
Qed.

Lemma processLocation_plain (location : value) :
  hasCoordinates location = true ->
  processLocation P location JUndefined JUndefined
  = Some {| coordinates :=
              (ToNumber P (get_opt (get_opt location "coordinates") "lat"),
               ToNumber P (get_opt (get_opt location "coordinates") "lng"));
            formatted_address :=
              or_else (get_opt location "formatted_address") (JStr "");
            distance := None |}.
Proof.
  unfold hasCoordinates, processLocation. intros H.
  apply andb_true_iff in H. destruct H as [H Hlng].
  apply andb_true_iff in H. destruct H as [H Hlat].
  apply andb_true_iff in H. destruct H as [Hloc Hobj].
  rewrite Hloc, Hobj, Hlat, Hlng. cbn [negb orb].
  rewrite !(get_truthy_base location) by exact Hloc.
  rewrite (get_truthy_field _ "lat") by exact Hlat.
  rewrite (get_truthy_field _ "lng") by exact Hlng.
  reflexivity.
Qed.

Lemma hasCoordinates_absent (location : value) :
  is_nullish location = true
  \/ is_nullish (get_opt location "coordinates") = true ->
  hasCoordinates location = false.
Proof.
  unfold hasCoordinates. intros [H|H].
  - destruct location; cbn in H; try discriminate; reflexivity.
  - destruct (get_opt location "coordinates"); cbn in H; try discriminate;
      cbn; now rewrite andb_false_r.
Qed.

Lemma hasCoordinates_numeric (fields : list (string * value)) (lat lng : float) :
  get_opt (assoc "coordinates" fields) "lat" = JNum lat ->
  get_opt (assoc "coordinates" fields) "lng" = JNum lng ->
  is_zero lat || is_nan lat = false ->
  is_zero lng || is_nan lng = false ->
  hasCoordinates (JObj fields) = true.
Proof.
  intros Hlat Hlng Zlat Zlng. unfold hasCoordinates.
  cbn [ToBoolean typeof_object get_opt get andb].
  fold (get_opt (assoc "coordinates" fields) "lat").
  fold (get_opt (assoc "coordinates" fields) "lng").
  rewrite Hlat, Hlng. cbn [ToBoolean]. now rewrite Zlat, Zlng.
Qed.


(** The outcome of the membership step of POST /reviews. *)
Lemma membershipRefusal_cases (db : Database) (uid : Z) (g : option Z) :
  membershipRefusal db uid (truthy_int g)
  = if negb (groupIdInRange g) then
      Some (Message 500 "error" "Failed to create review")
    else if memberCheck db uid g then None
    else Some (Message 403 "error" "Not a member of this group").
Proof.
  unfold membershipRefusal, groupIdInRange, memberCheck.
  destruct (truthy_int g) as [g'|]; [|reflexivity].
  destruct (int4 g'); cbn [negb]; [|reflexivity].
  rewrite membership_empty. now destruct (isMember db g' uid).
Qed.

(** The steps of POST /reviews before the location is processed. *)
Lemma postReview_no_coordinates (db : Database) (uid : Z) (body : ReviewBody) (now : Z)
      (place : string) (stars : Z) :
  uid <> 0 ->
  truthy_string (body_placeId body) = Some place ->
  truthy_int (body_rating body) = Some stars ->
  groupIdInRange (body_groupId body) = true ->
  memberCheck db uid (body_groupId body) = true ->
  hasCoordinates (body_location body) = false ->
  postReview P db (Some uid) body now
  = (Message 400 "error" "Invalid location data", db).
Proof.
  intros Hid Hp Hr Hrange Hg Hc. unfold postReview.
  rewrite (truthy_id_nonzero uid Hid), Hp, Hr.
  rewrite membershipRefusal_cases, Hrange, Hg. cbn [negb].
  now rewrite processLocation_null.
Qed.

(** After the username lookup a review that the database accepted is
    answered 201. *)
Lemma postReview_inserted (db : Database) (uid : Z) (body : ReviewBody) (now : Z)
      (place : string) (stars : Z) (l : LocationData) :
  uid <> 0 ->
  truthy_string (body_placeId body) = Some place ->
  truthy_int (body_rating body) = Some stars ->
  groupIdInRange (body_groupId body) = true ->
  memberCheck db uid (body_groupId body) = true ->
  processLocation P (body_location body) JUndefined JUndefined = Some l ->
  if reviewAccepted db (reviewValues db uid place stars body l now) then
    exists created db',
      postReview P db (Some uid) body now = (Json 201 created, db')
      /\ reviews db' = (reviews db ++ [created_review created])%list
      /\ created_review created = reviewValues db uid place stars body l now
      /\ created_location created = l
  else
    postReview P db (Some uid) body now
    = (Message 500 "error" "Failed to create review", db).
Proof.
  intros Hid Hp Hr Hrange Hg Hl. unfold postReview.
  rewrite (truthy_id_nonzero uid Hid), Hp, Hr.
  rewrite membershipRefusal_cases, Hrange, Hg. cbn [negb].
  rewrite Hl. unfold insertReview.
  destruct (reviewAccepted db _) eqn:Hacc; [|reflexivity].
  cbn [users].
  destruct (filter (fun u => user_id u =? uid) (users db)) as [|u rest] eqn:Hf.
  { apply filter_none_inv in Hf. unfold reviewAccepted in Hacc.
    cbn [review_userId reviewValues] in Hacc. rewrite Hf in Hacc.
    now rewrite !andb_false_r in Hacc. }
  do 2 eexists. split; [reflexivity|]. now cbn.
Qed.

(** C9, as amended: POST /reviews answers 400 when [placeId] or
    [rating] is missing; a [groupId] outside the [integer] column is
    answered 500, and one of a group the user is not a member of 403; past
    these checks a request with no location or no coordinates is answered
    400; with a location whose coordinates are non-zero numbers the review
    is inserted: the answer is 201 with the review stored when the database
    accepts the row, and 500 with nothing stored when it rejects it (a
    rating outside the [integer] column, for one). *)
Theorem postReview_validation (db : Database) (uid : Z) (body : ReviewBody) (now : Z) :
  uid <> 0 ->
  (truthy_string (body_placeId body) = None \/ truthy_int (body_rating body) = None ->
   postReview P db (Some uid) body now
   = (Message 400 "error" "Missing required fields", db))
  /\ (forall place stars,
         truthy_string (body_placeId body) = Some place ->
         truthy_int (body_rating body) = Some stars ->
         (groupIdInRange (body_groupId body) = false ->
          postReview P db (Some uid) body now
          = (Message 500 "error" "Failed to create review", db))
         /\ (groupIdInRange (body_groupId body) = true ->
             memberCheck db uid (body_groupId body) = false ->
             postReview P db (Some uid) body now
             = (Message 403 "error" "Not a member of this group", db))
         /\ (groupIdInRange (body_groupId body) = true ->
             memberCheck db uid (body_groupId body) = true ->
             is_nullish (body_location body) = true
             \/ is_nullish (get_opt (body_location body) "coordinates") = true ->
             postReview P db (Some uid) body now
             = (Message 400 "error" "Invalid location data", db))
         /\ (forall fields lat lng,
                groupIdInRange (body_groupId body) = true ->
                memberCheck db uid (body_groupId body) = true ->
                body_location body = JObj fields ->
                get_opt (assoc "coordinates" fields) "lat" = JNum lat ->
                get_opt (assoc "coordinates" fields) "lng" = JNum lng ->
                is_zero lat || is_nan lat = false ->
                is_zero lng || is_nan lng = false ->
                let l := {| coordinates := (lat, lng);
                            formatted_address :=
                              or_else (assoc "formatted_address" fields) (JStr "");
                            distance := None |} in
                if reviewAccepted db (reviewValues db uid place stars body l now) then
                  exists created db',
                    postReview P db (Some uid) body now = (Json 201 created, db')
                    /\ reviews db' = (reviews db ++ [created_review created])%list
                    /\ review_userId (created_review created) = uid
                    /\ placeId (created_review created) = place
                    /\ rating (created_review created) = stars
                    /\ groupId (created_review created)
                       = truthy_int (body_groupId body)
                    /\ created_location created = l
                else
                  postReview P db (Some uid) body now
                  = (Message 500 "error" "Failed to create review", db))
         /\ (int4 stars = false ->
             forall l, reviewAccepted db (reviewValues db uid place stars body l now)
                       = false)).
Proof.
  intros Hid. split; [|intros place stars Hp Hr; split; [|split; [|split; [|split]]]].
  - unfold postReview. rewrite (truthy_id_nonzero uid Hid).
    intros [-> | ->]; [reflexivity|].
    now destruct (truthy_string (body_placeId body)).
  - intros Hrange. unfold postReview.
    rewrite (truthy_id_nonzero uid Hid), Hp, Hr.
    now rewrite membershipRefusal_cases, Hrange.
  - intros Hrange Hg. unfold postReview.
    rewrite (truthy_id_nonzero uid Hid), Hp, Hr.
    now rewrite membershipRefusal_cases, Hrange, Hg.
  - intros Hrange Hg Habs.
    apply (postReview_no_coordinates db uid body now place stars); auto.
    now apply hasCoordinates_absent.
  - intros fields lat lng Hrange Hg Hloc Hlat Hlng Zlat Zlng l.
    assert (Hc : hasCoordinates (body_location body) = true)
      by (rewrite Hloc; now apply (hasCoordinates_numeric fields lat lng)).
    assert (Hl : processLocation P (body_location body) JUndefined JUndefined = Some l).
    { rewrite (processLocation_plain _ Hc), Hloc. cbn [get_opt get].
      fold (get_opt (assoc "coordinates" fields) "lat").
      fold (get_opt (assoc "coordinates" fields) "lng").
      now rewrite Hlat, Hlng. }
    pose proof (postReview_inserted db uid body now place stars l
                  Hid Hp Hr Hrange Hg Hl) as H.
    destruct (reviewAccepted db _); [|exact H].
    destruct H as (created & db' & Hpost & Hrev & Hrow & Hcl).
    exists created, db'.
    repeat split; try assumption; rewrite Hrow; reflexivity.
  - intros Hs l. unfold reviewAccepted. cbn [rating reviewValues].
    rewrite Hs. now rewrite !andb_false_r.
Qed.



End Create.

(** ** The properties on the example data *)

Local Open Scope float_scope.


(** On this platform the formula gives 5952.747... and the code returns
    5952.7. *)
Example calculateDistance_rounded :
  haversine_km smallAngle 37.7749 (-122.4194) 40.7128 (-74.006)
  = 0x1.740bf3c639f73p+12
  /\ calculateDistance smallAngle (JNum 37.7749) (JNum (-122.4194))
                       (JNum 40.7128) (JNum (-74.006))
     = Some 5952.7.
Proof. split; vm_compute; reflexivity. Qed.

(** Rounding of values halfway between two tenths, of small negative
    values and of values too large to have decimals. *)
Example toFixed1_examples :
  toFixed1 0.25 = 0.3 /\ toFixed1 0.75 = 0.8 /\ toFixed1 0.35 = 0.3
  /\ toFixed1 (-0.04) = (-0) /\ toFixed1 12345.678 = 12345.7
  /\ toFixed1 1e22 = 1e22 /\ toFixed1 0 = 0.
Proof. repeat split; vm_compute; reflexivity. Qed.

Lemma calculateDistance_symmetric_witness :
  (forall x, Math_sin smallAngle (- x) = - Math_sin smallAngle x)
  /\ calculateDistance smallAngle (JNum 37.7749) (JNum (-122.4194))
                       (JNum 40.7128) (JNum (-74.006))
     = calculateDistance smallAngle (JNum 40.7128) (JNum (-74.006))
                         (JNum 37.7749) (JNum (-122.4194)).
Proof.
  split; [reflexivity|].
  apply calculateDistance_symmetric. reflexivity.
Defined.

Local Close Scope float_scope.

(** C4, counterexample: [exampleDb] holds two public reviews, and the
    request without a session is answered 401, never with a list. *)
Lemma community_anonymous_rejected :
  getCommunity smallAngle exampleDb anonymous
               (Message 401 "message" "Not authenticated")
  /\ ~ (exists rows, getCommunity smallAngle exampleDb anonymous (Json 200 rows)).
Proof.
  split; [reflexivity|]. intros [rows H]. discriminate H.
Qed.

Lemma getCommunity_requires_session_witness :
  exists rows,
    runCommunity smallAngle exampleDb alice = Json 200 rows
    /\ Permutation (map community_id rows)
                   (map review_id (filter isPublic (reviews exampleDb)))
    /\ Forall (fun row =>
                 isLiked (community_cols row)
                 = negb (1 =? 0) && likeExists exampleDb (community_id row) 1)
              rows.
Proof.
  apply (getCommunity_requires_session smallAngle exampleDb alice).
  - reflexivity.
  - apply runCommunity_admissible.
Defined.

Lemma getFollowing_scope_witness :
  exists rows,
    runFollowing smallAngle exampleDb alice = Json 200 rows
    /\ Forall (fun row =>
                 exists r, In r (reviews exampleDb)
                           /\ liked_id row = review_id r
                           /\ isPublic r = true
                           /\ exists f, In f (follows exampleDb)
                                        /\ followerId f = 1
                                        /\ followingId f = review_userId r)
              rows
    /\ Permutation
         (map liked_id rows)
         (map review_id
              (filter (fun r => isPublic r && followed exampleDb 1 (review_userId r))
                      (reviews exampleDb))).
Proof.
  apply (getFollowing_scope smallAngle exampleDb alice 1).
  - reflexivity.
  - reflexivity.
  - apply runFollowing_admissible.
Defined.

(** Alice is a member of group 1 and gets its private review. *)
Lemma getGroupReviews_members_only_witness :
  exists rows,
    runGroupReviews exampleDb alice 1 = Json 200 rows
    /\ Permutation (map group_row_id rows)
                   (map review_id (filter (inGroup 1) (reviews exampleDb))).
Proof.
  apply (getGroupReviews_members_only exampleDb alice 1 1).
  - reflexivity.
  - reflexivity.
  - reflexivity.
  - apply runGroupReviews_admissible.
Defined.

(** Bob is not a member. *)
Example getGroupReviews_bob :
  runGroupReviews exampleDb bob 1 = Message 403 "message" "Not a member of this group".
Proof. reflexivity. Qed.

(** C7, counterexample: the two public reviews of [exampleDb] have the
    same timestamp; the reply that lists review 2 before review 1 is a reply
    of the community feed, and so is the one that lists 1 before 2. *)
Lemma community_tie_order_not_fixed :
  getCommunity smallAngle exampleDb alice (Json 200 communityReversed)
  /\ map community_id communityReversed = [2; 1]
  /\ map (fun row => col_createdAt (liked_cols (community_cols row))) communityReversed
     = [100; 100]
  /\ getCommunity smallAngle exampleDb alice (runCommunity smallAngle exampleDb alice)
  /\ exists rows, runCommunity smallAngle exampleDb alice = Json 200 rows
                  /\ map community_id rows = [1; 2].
Proof.
  split; [|split; [reflexivity | split; [reflexivity | split]]].
  - unfold getCommunity. cbn [alice req_user isAuthenticated negb].
    exists (rev (communityQuery exampleDb (truthy_id (Some 1)))).
    split; [|reflexivity]. split; [apply Permutation_rev|].
    cbn. repeat (constructor; try (cbn; lia)).
  - apply runCommunity_admissible.
  - eexists. split; reflexivity.
Qed.

Lemma feeds_newest_first_witness :
  newest_first (fun row => col_createdAt (liked_cols (community_cols row)))
               (runCommunity smallAngle exampleDb alice)
  /\ newest_first (fun row => col_createdAt (liked_cols row))
                  (runFollowing smallAngle exampleDb alice)
  /\ newest_first (fun row => col_createdAt (liked_cols row))
                  (runPlace smallAngle exampleDb alice "p1")
  /\ newest_first (fun row => col_createdAt (group_cols row))
                  (runGroupReviews exampleDb alice 1).
Proof.
  apply (feeds_newest_first smallAngle exampleDb alice "p1" 1).
  - apply runCommunity_admissible.
  - apply runFollowing_admissible.
  - apply runPlace_admissible.
  - apply runGroupReviews_admissible.
Defined.

(** Alice already likes review 1 and does not like review 2. *)
Lemma like_twice_unlike_twice_witness :
  postLike exampleDb (Some 1) 1 300
  = (Message 400 "message" "Already liked this review", exampleDb)
  /\ deleteLike exampleDb (Some 1) 2 = (Empty 204, exampleDb).
Proof.
  split.
  - destruct (like_twice_unlike_twice exampleDb 1 1 300) as (H & _ & _ & _); [lia|].
    apply H; reflexivity.
  - destruct (like_twice_unlike_twice exampleDb 1 2 300) as (_ & _ & H & _); [lia|].
    apply H; reflexivity.
Defined.

(** C9, counterexample: a request with [placeId] and [rating] and no
    location is answered 400 and stores nothing. *)
Lemma review_without_location_rejected :
  postReview smallAngle exampleDb (Some 1) (exampleBody JUndefined) 200
  = (Message 400 "error" "Invalid location data", exampleDb).
Proof. reflexivity. Qed.

Lemma postReview_validation_witness :
  exists created db',
    postReview smallAngle exampleDb (Some 1) (exampleBody newYork) 200
    = (Json 201 created, db')
    /\ reviews db' = (reviews exampleDb ++ [created_review created])%list
    /\ review_userId (created_review created) = 1
    /\ placeId (created_review created) = "p9"
    /\ rating (created_review created) = 5
    /\ coordinates (created_location created) = (40.7128%float, (-74.006)%float).
Proof.
  destruct (postReview_validation smallAngle exampleDb 1 (exampleBody newYork) 200)
    as [_ H]; [lia|].
  destruct (H "p9" 5 eq_refl eq_refl) as (_ & _ & _ & Hok & _).
  destruct (Hok _ 40.7128%float (-74.006)%float eq_refl eq_refl eq_refl eq_refl
                eq_refl eq_refl eq_refl)
    as (created & db' & Hpost & Hrev & Hu & Hp & Hr & _ & Hl).
  exists created, db'. rewrite Hl. now repeat split.
Defined.



(** The community feed that Alice gets: both public reviews, the location
    of the review of Quito replaced by [null]. *)
Example runCommunity_alice :
  exists rows,
    runCommunity smallAngle exampleDb alice = Json 200 rows
    /\ map community_id rows = [1; 2]
    /\ map (fun row => isLiked (community_cols row)) rows = [true; false]
    /\ map (fun row => likes (community_cols row)) rows = [1; 0]
    /\ map (fun row =>
              match col_location (liked_cols (community_cols row)) with
              | Some _ => true
              | None => false
              end) rows = [true; false].
Proof. eexists. repeat split. Qed.

(** Bob follows nobody. *)
Example runFollowing_bob : runFollowing smallAngle exampleDb bob = Json 200 [].
Proof. reflexivity. Qed.

(** Liking and then unliking a review restores the like rows. *)
Example like_then_unlike :
  exists db',
    postLike exampleDb (Some 2) 1 300
    = (Message 201 "message" "Review liked successfully", db')
    /\ likesOfReview db' 1 = 2
    /\ reviewLikes (snd (deleteLike db' (Some 2) 1)) = reviewLikes exampleDb.
Proof. eexists. repeat split. Qed.

(** ** Likes: round trip, scope and invariants *)

Lemma pair_eqb_sym (p q : Z * Z) : pair_eqb p q = pair_eqb q p.
Proof. unfold pair_eqb. now rewrite (Z.eqb_sym (fst p)), (Z.eqb_sym (snd p)). Qed.

Lemma distinct_pairs_snoc (l : list (Z * Z)) (p : Z * Z) :
  distinct_pairs (l ++ [p]) = distinct_pairs l && negb (existsb (pair_eqb p) l).
Proof.
  induction l as [|q rest IH]; cbn; [reflexivity|].
  rewrite existsb_app, IH. cbn. rewrite (pair_eqb_sym p q).
  destruct (existsb (pair_eqb q) rest), (pair_eqb q p), (distinct_pairs rest),
    (existsb (pair_eqb p) rest); reflexivity.
Qed.

Lemma existsb_filter_le {A : Type} (f g : A -> bool) (l : list A) :
  existsb f l = false -> existsb f (filter g l) = false.
Proof.
  induction l as [|x rest IH]; cbn; [reflexivity|].
  intros H. apply orb_false_iff in H. destruct H as [Hx Hr].
  destruct (g x); cbn; [rewrite Hx|]; now apply IH.
Qed.

Lemma distinct_pairs_filter {A : Type} (key : A -> Z * Z) (g : A -> bool) (l : list A) :
  distinct_pairs (map key l) = true -> distinct_pairs (map key (filter g l)) = true.
Proof.
  induction l as [|x rest IH]; cbn; [reflexivity|].
  intros H. apply andb_true_iff in H. destruct H as [Hx Hr].
  destruct (g x); cbn; [|now apply IH].
  rewrite (IH Hr), andb_true_r. apply negb_true_iff in Hx. apply negb_true_iff.
  rewrite existsb_map in *. now apply existsb_filter_le.
Qed.

Lemma likeExists_pairs (db : Database) (reviewId uid : Z) :
  existsb (pair_eqb (reviewId, uid))
          (map (fun l => (like_reviewId l, like_userId l)) (reviewLikes db))
  = likeExists db reviewId uid.
Proof.
  unfold likeExists. rewrite existsb_map.
  induction (reviewLikes db) as [|l rest IH]; cbn; [reflexivity|].
  rewrite IH. unfold pair_eqb. cbn.
  now rewrite (Z.eqb_sym reviewId), (Z.eqb_sym uid).
Qed.

(** What a 201 of POST /reviews/:reviewId/like means. *)
Lemma postLike_created (db db' : Database) (user : option Z) (reviewId now : Z) :
  postLike db user reviewId now
  = (Message 201 "message" "Review liked successfully", db') ->
  exists uid,
    truthy_id user = Some uid
    /\ int4 reviewId = true
    /\ likeExists db reviewId uid = false
    /\ existsb (fun r => review_id r =? reviewId) (reviews db) = true
    /\ db' = {| users := users db;
                follows := follows db;
                groups := groups db;
                groupMembers := groupMembers db;
                reviews := reviews db;
                reviewLikes :=
                  reviewLikes db ++
                  [ {| like_id := reviewLikes_seq db;
                       like_reviewId := reviewId;
                       like_userId := uid;
                       like_createdAt := now |} ];
                reviews_seq := reviews_seq db;
                reviewLikes_seq := reviewLikes_seq db + 1 |}.
Proof.
  unfold postLike. destruct (truthy_id user) as [uid|]; [|discriminate].
  destruct (int4 reviewId) eqn:Hrange; cbn [negb]; [|discriminate].
  rewrite existingLike_found.
  destruct (likeExists db reviewId uid) eqn:Hl; [discriminate|].
  unfold insertLike.
  destruct (existsb (fun r => review_id r =? reviewId) (reviews db)) eqn:Hr;
    [|discriminate].
  destruct (existsb (fun u => user_id u =? uid) (users db)); [|discriminate].
  cbn [andb]. intros [= <-]. exists uid. auto.
Qed.



Lemma existsb_filter_and {A : Type} (f g : A -> bool) (l : list A) :
  existsb f (filter g l) = existsb (fun x => f x && g x) l.
Proof.
  induction l as [|x rest IH]; cbn; [reflexivity|].
  destruct (g x); cbn; rewrite IH; [now rewrite andb_true_r | now rewrite andb_false_r].
Qed.

Lemma existsb_ext_in {A : Type} (f g : A -> bool) (l : list A) :
  (forall x, f x = g x) -> existsb f l = existsb g l.
Proof.
  intros H. induction l as [|x rest IH]; cbn; [reflexivity | now rewrite H, IH].
Qed.

(** X2: for a review id of the [integer] column an unlike answers 204
    and removes the caller's like of that review and nothing else: no other
    (review, user) pair changes, and no other review's count. *)
Theorem deleteLike_scope (db : Database) (uid reviewId : Z) :
  uid <> 0 ->
  int4 reviewId = true ->
  fst (deleteLike db (Some uid) reviewId) = Empty 204
  /\ likeExists (snd (deleteLike db (Some uid) reviewId)) reviewId uid = false
  /\ (forall r u,
         r <> reviewId \/ u <> uid ->
         likeExists (snd (deleteLike db (Some uid) reviewId)) r u = likeExists db r u)
  /\ (forall r,
         r <> reviewId ->
         likesOfReview (snd (deleteLike db (Some uid) reviewId)) r = likesOfReview db r).
Proof.
  intros Hid Hrange. unfold deleteLike. rewrite (truthy_id_nonzero uid Hid), Hrange.
  cbn [negb fst snd]. split; [reflexivity|]. unfold likeExists, likesOfReview.
  cbn [reviewLikes]. split; [|split].
  - rewrite existsb_filter_and. induction (reviewLikes db) as [|l rest IH]; cbn;
      [reflexivity|]. rewrite IH.
    now destruct ((like_reviewId l =? reviewId) && (like_userId l =? uid)).
  - intros r u Hne. rewrite existsb_filter_and. apply existsb_ext_in. intros l.
    destruct (Z.eqb_spec (like_reviewId l) r) as [E1|]; [|reflexivity].
    destruct (Z.eqb_spec (like_userId l) u) as [E2|]; [|reflexivity].
    cbn. rewrite E1, E2.
    destruct (Z.eqb_spec r reviewId), (Z.eqb_spec u uid); cbn; try reflexivity.
    lia.
  - intros r Hne. f_equal. f_equal.
    induction (reviewLikes db) as [|l rest IH]; cbn; [reflexivity|].
    destruct (Z.eqb_spec (like_reviewId l) reviewId) as [E|E]; cbn.
    + destruct (like_userId l =? uid); cbn; rewrite ?IH;
        destruct (Z.eqb_spec r (like_reviewId l)); try reflexivity; lia.
    + now rewrite IH.
Qed.

Lemma deleteLike_scope_witness :
  fst (deleteLike exampleDb (Some 1) 1) = Empty 204
  /\ likeExists (snd (deleteLike exampleDb (Some 1) 1)) 1 1 = false.
Proof.
  destruct (deleteLike_scope exampleDb 1 1) as (H1 & H2 & _); [lia | reflexivity |].
  split; [exact H1 | exact H2].
Defined.

(** X3: liking and unliking keep at most one like row per review and
    user. *)
Theorem likes_stay_unique (db : Database) (user : option Z) (reviewId now : Z) :
  unique_likes db = true ->
  unique_likes (snd (postLike db user reviewId now)) = true
  /\ unique_likes (snd (deleteLike db user reviewId)) = true.
Proof.
  intros Hu. split.
  - unfold postLike. destruct (truthy_id user) as [uid|]; [|exact Hu].
    destruct (negb (int4 reviewId)); [exact Hu|].
    rewrite existingLike_found.
    destruct (likeExists db reviewId uid) eqn:Hl; [exact Hu|].
    unfold insertLike. destruct (_ && _); [|exact Hu].
    unfold unique_likes. cbn [snd reviewLikes].
    rewrite map_app. cbn [map like_reviewId like_userId].
    rewrite distinct_pairs_snoc, likeExists_pairs, Hl.
    fold (unique_likes db). now rewrite Hu.
  - unfold deleteLike. destruct (truthy_id user) as [uid|]; [|exact Hu].
    destruct (negb (int4 reviewId)); [exact Hu|].
    unfold unique_likes. cbn [snd reviewLikes]. now apply distinct_pairs_filter.
Qed.

Lemma likes_stay_unique_witness :
  unique_likes (snd (postLike exampleDb (Some 2) 1 300)) = true
  /\ unique_likes (snd (deleteLike exampleDb (Some 2) 1)) = true.
Proof. apply likes_stay_unique. reflexivity. Defined.

Lemma no_review_no_like (db : Database) (reviewId uid : Z) :
  likes_have_reviews db = true ->
  existsb (fun r => review_id r =? reviewId) (reviews db) = false ->
  likeExists db reviewId uid = false.
Proof.
  unfold likes_have_reviews, likeExists. intros Hinv Hno.
  rewrite forallb_forall in Hinv.
  destruct (existsb _ (reviewLikes db)) eqn:E; [|reflexivity].
  apply existsb_exists in E. destruct E as (l & Hin & Hl).
  apply andb_true_iff in Hl. destruct Hl as [Hr _]. apply Z.eqb_eq in Hr.
  specialize (Hinv l Hin). rewrite Hr in Hinv. congruence.
Qed.

(** X4: a like of a review that does not exist is answered 500 (the
    foreign key rejects the row), not 404, and stores nothing. *)
Theorem like_of_missing_review (db : Database) (uid reviewId now : Z) :
  uid <> 0 ->
  likes_have_reviews db = true ->
  existsb (fun r => review_id r =? reviewId) (reviews db) = false ->
  postLike db (Some uid) reviewId now
  = (Message 500 "message" "Failed to like review", db).
Proof.
  intros Hid Hinv Hno. unfold postLike.
  rewrite (truthy_id_nonzero uid Hid).
  destruct (negb (int4 reviewId)); [reflexivity|].
  rewrite existingLike_found.
  rewrite (no_review_no_like db reviewId uid Hinv Hno).
  unfold insertLike. now rewrite Hno.
Qed.

Lemma like_of_missing_review_witness :
  postLike exampleDb (Some 1) 9 300
  = (Message 500 "message" "Failed to like review", exampleDb).
Proof. apply like_of_missing_review; [lia | reflexivity | reflexivity]. Defined.

Lemma forallb_filter_keep {A : Type} (f g : A -> bool) (l : list A) :
  forallb f l = true -> forallb f (filter g l) = true.
Proof.
  induction l as [|x rest IH]; cbn; [reflexivity|].
  intros H. apply andb_true_iff in H. destruct H as [Hx Hr].
  destruct (g x); cbn; [rewrite Hx|]; now apply IH.
Qed.

Section LikesAndReviews.

Variable P : Platform.

(** X5: no handler leaves a like of a review that is not in the table:
    liking, unliking, deleting a review and creating one keep the
    reference from [review_likes] to [reviews]. *)
Theorem likes_keep_their_reviews (db : Database) (user : option Z)
        (reviewId now : Z) (body : ReviewBody) :
  likes_have_reviews db = true ->
  likes_have_reviews (snd (postLike db user reviewId now)) = true
  /\ likes_have_reviews (snd (deleteLike db user reviewId)) = true
  /\ likes_have_reviews (snd (deleteReview db user reviewId)) = true
  /\ likes_have_reviews (snd (postReview P db user body now)) = true.
Proof.
  intros Hinv. split; [|split; [|split]].
  - unfold postLike. destruct (truthy_id user) as [uid|]; [|exact Hinv].
    destruct (negb (int4 reviewId)); [exact Hinv|].
    destruct (Nat.ltb 0 _); [exact Hinv|].
    unfold insertLike.
    destruct (existsb (fun r => review_id r =? reviewId) (reviews db)) eqn:Hr;
      [|exact Hinv].
    destruct (existsb (fun u => user_id u =? uid) (users db)); [|exact Hinv].
    unfold likes_have_reviews. cbn [andb snd reviewLikes reviews].
    rewrite forallb_app. fold (likes_have_reviews db). rewrite Hinv.
    cbn. now rewrite Hr.
  - unfold deleteLike. destruct (truthy_id user) as [uid|]; [|exact Hinv].
    destruct (negb (int4 reviewId)); [exact Hinv|].
    unfold likes_have_reviews. cbn [snd reviewLikes reviews].
    now apply forallb_filter_keep.
  - unfold deleteReview. destruct (truthy_id user) as [uid|]; [|exact Hinv].
    destruct (negb (int4 reviewId)); [exact Hinv|].
    destruct (Nat.eqb _ 0); [exact Hinv|].
    unfold likes_have_reviews in *. cbn [snd reviewLikes reviews].
    rewrite forallb_forall in *. intros l Hin.
    apply filter_In in Hin. destruct Hin as [Hin Hne].
    specialize (Hinv l Hin). rewrite existsb_filter_and.
    apply existsb_exists in Hinv. destruct Hinv as (r & Hr & Heq).
    apply existsb_exists. exists r. split; [exact Hr|].
    rewrite Heq. apply Z.eqb_eq in Heq. now rewrite Heq.
  - unfold postReview. destruct (truthy_id user) as [uid|]; [|exact Hinv].
    destruct (truthy_string (body_placeId body)); [|exact Hinv].
    destruct (truthy_int (body_rating body)); [|exact Hinv].
    destruct (membershipRefusal db uid (truthy_int (body_groupId body)));
      [exact Hinv|].
    destruct (processLocation P (body_location body) JUndefined JUndefined)
      as [processed|]; [|exact Hinv].
    unfold insertReview. destruct (reviewAccepted db _); [|exact Hinv].
    assert (Hnew : forall r, likes_have_reviews
                               {| users := users db; follows := follows db;
                                  groups := groups db; groupMembers := groupMembers db;
                                  reviews := reviews db ++ [r];
                                  reviewLikes := reviewLikes db;
                                  reviews_seq := reviews_seq db + 1;
                                  reviewLikes_seq := reviewLikes_seq db |} = true).
    { intros r. unfold likes_have_reviews in *. cbn [reviewLikes reviews].
      rewrite forallb_forall in *. intros l Hin.
      rewrite existsb_app, (Hinv l Hin). reflexivity. }
    cbn [users]. destruct (filter _ (users db)); cbn [snd]; apply Hnew.
Qed.

End LikesAndReviews.

Lemma likes_keep_their_reviews_witness :
  likes_have_reviews (snd (deleteReview exampleDb (Some 2) 1)) = true.
Proof.
  apply (likes_keep_their_reviews smallAngle exampleDb (Some 2) 1 300
                                  (exampleBody newYork)).
  reflexivity.
Defined.

(** ** Feeds after likes, deletions and creations *)

Lemma communityQuery_row (db : Database) (userId : option Z) (row : CommunityRow value) :
  In row (communityQuery db userId) <->
  exists r u,
    In r (reviews db) /\ isPublic r = true /\ In u (authors db r)
    /\ row = {| community_cols :=
                  {| liked_cols := select_cols r (Some u);
                     likes := likesOfReview db (review_id r);
                     isLiked := isLikedColumn db r userId |};
                row_groupId := groupId r;
                row_groupName := groupNameColumn db r |}.
Proof.
  unfold communityQuery. rewrite in_flat_map. split.
  - intros (r & Hin & Hrow). destruct (isPublic r) eqn:Hp; [|contradiction].
    apply in_map_iff in Hrow. destruct Hrow as (u & <- & Hu).
    exists r, u. auto.
  - intros (r & u & Hin & Hp & Hu & ->). exists r. split; [exact Hin|].
    rewrite Hp. apply in_map_iff. exists u. auto.
Qed.

Lemma followingQuery_row (db : Database) (viewer : Z) (row : LikedRow value) :
  In row (followingQuery db viewer) <->
  exists r u,
    In r (reviews db) /\ isPublic r = true /\ In u (authors db r)
    /\ followed db viewer (review_userId r) = true
    /\ row = {| liked_cols := select_cols r (Some u);
                likes := Z.of_nat (List.length (likesOf db r)
                                   * List.length (followEdges db viewer r));
                isLiked := likeExists db (review_id r) viewer |}.
Proof.
  unfold followingQuery. rewrite in_flat_map. split.
  - intros (r & Hin & Hrow). rewrite in_flat_map in Hrow.
    destruct Hrow as (u & Hu & Hrow). rewrite followEdges_followed in Hrow.
    destruct (isPublic r) eqn:Hp, (followed db viewer (review_userId r)) eqn:Hf;
      cbn in Hrow; try contradiction.
    destruct Hrow as [<-|[]]. exists r, u. auto.
  - intros (r & u & Hin & Hp & Hu & Hf & ->). exists r. split; [exact Hin|].
    rewrite in_flat_map. exists u. split; [exact Hu|].
    rewrite followEdges_followed, Hp, Hf. now left.
Qed.

Lemma placeQuery_row (db : Database) (place : string) (userId : option Z)
      (row : LikedRow value) :
  In row (placeQuery db place userId) ->
  exists r u,
    In r (reviews db) /\ placeId r = place
    /\ row = {| liked_cols := select_cols r u;
                likes := likesOfReview db (review_id r);
                isLiked := isLikedColumn db r userId |}.
Proof.
  unfold placeQuery. rewrite in_flat_map. intros (r & Hin & Hrow).
  destruct (String.eqb_spec (placeId r) place) as [Hp|]; [|contradiction].
  apply in_map_iff in Hrow. destruct Hrow as (u & <- & _).
  exists r, u. auto.
Qed.

Lemma groupQuery_row (db : Database) (g : Z) (row : GroupRow) :
  In row (groupQuery db g) ->
  exists r, In r (reviews db) /\ inGroup g r = true /\ group_row_id row = review_id r.
Proof.
  unfold groupQuery. rewrite in_flat_map. intros (r & Hin & Hrow).
  exists r. split; [exact Hin|]. unfold inGroup.
  destruct (groupId r) as [g'|]; [|contradiction].
  destruct (g' =? g); [|contradiction].
  apply in_map_iff in Hrow. destruct Hrow as (u & <- & _). auto.
Qed.

Lemma likeExists_count (db : Database) (reviewId uid : Z) :
  likeExists db reviewId uid = true -> 1 <= likesOfReview db reviewId.
Proof.
  unfold likeExists, likesOfReview.
  induction (reviewLikes db) as [|l rest IH]; cbn [existsb filter]; [discriminate|].
  rewrite (Z.eqb_sym reviewId).
  destruct (like_reviewId l =? reviewId); cbn [andb orb List.length]; [lia|].
  exact IH.
Qed.

Lemma isLikedColumn_count (db : Database) (r : Review) (userId : option Z) :
  isLikedColumn db r userId = true -> 1 <= likesOfReview db (review_id r).
Proof.
  destruct userId as [uid|]; cbn; [apply likeExists_count | discriminate].
Qed.

Section FeedRows.

Variable P : Platform.

(** X6: in the community, following and place feeds a row with
    [isLiked] has at least one like. *)
Theorem liked_rows_have_likes (db : Database) (req : FeedRequest) (place : string)
        (community : Reply (list (CommunityRow (option LocationData))))
        (following byPlace : Reply (list (LikedRow (option LocationData)))) :
  getCommunity P db req community ->
  getFollowing P db req following ->
  getPlace P db req place byPlace ->
  match community with
  | Json _ rows =>
      Forall (fun row => isLiked (community_cols row) = true
                         -> 1 <= likes (community_cols row)) rows
  | _ => True
  end
  /\ match following with
     | Json _ rows => Forall (fun row => isLiked row = true -> 1 <= likes row) rows
     | _ => True
     end
  /\ match byPlace with
     | Json _ rows => Forall (fun row => isLiked row = true -> 1 <= likes row) rows
     | _ => True
     end.
Proof.
  unfold getCommunity, getFollowing, getPlace. intros Hc Hf Hp. split; [|split].
  - destruct (negb (isAuthenticated (req_user req))); [now subst|].
    destruct Hc as (raw & Hord & ->). apply Forall_map, Forall_forall.
    intros row Hin. apply (orderBy_desc_In _ _ _ _ Hord) in Hin.
    apply communityQuery_row in Hin. destruct Hin as (r & u & _ & _ & _ & ->).
    cbn. apply isLikedColumn_count.
  - destruct (truthy_id (req_user req)) as [viewer|]; [|now subst].
    destruct Hf as (raw & Hord & ->). apply Forall_map, Forall_forall.
    intros row Hin. apply (orderBy_desc_In _ _ _ _ Hord) in Hin.
    apply followingQuery_row in Hin.
    destruct Hin as (r & u & _ & _ & _ & Hfol & ->). cbn. intros Hl.
    apply likeExists_count in Hl. unfold likesOfReview in Hl.
    fold (likesOf db r) in Hl.
    rewrite <- followEdges_followed in Hfol. apply negb_true_iff in Hfol.
    apply Nat.eqb_neq in Hfol. nia.
  - destruct (truthy_id (req_user req)) as [viewer|]; [|now subst].
    destruct (negb (pg_text place)); [now subst|].
    destruct Hp as (raw & Hord & ->). apply Forall_map, Forall_forall.
    intros row Hin. apply (orderBy_desc_In _ _ _ _ Hord) in Hin.
    apply placeQuery_row in Hin. destruct Hin as (r & u & _ & _ & ->).
    cbn. apply (isLikedColumn_count db r (Some viewer)).
Qed.

End FeedRows.

Lemma liked_rows_have_likes_witness :
  match runCommunity smallAngle exampleDb alice with
  | Json _ rows =>
      Forall (fun row => isLiked (community_cols row) = true
                         -> 1 <= likes (community_cols row)) rows
  | _ => True
  end.
Proof.
  apply (liked_rows_have_likes smallAngle exampleDb alice "p1"
           (runCommunity smallAngle exampleDb alice)
           (runFollowing smallAngle exampleDb alice)
           (runPlace smallAngle exampleDb alice "p1")).
  - apply runCommunity_admissible.
  - apply runFollowing_admissible.
  - apply runPlace_admissible.
Defined.

Lemma liked_counts (db db' : Database) (user : option Z) (reviewId now : Z) :
  postLike db user reviewId now
  = (Message 201 "message" "Review liked successfully", db') ->
  exists uid,
    truthy_id user = Some uid
    /\ reviews db' = reviews db
    /\ users db' = users db
    /\ (forall r, likesOfReview db' r
                  = likesOfReview db r + (if r =? reviewId then 1 else 0))
    /\ (forall r u, likeExists db' r u
                    = likeExists db r u || ((r =? reviewId) && (u =? uid))).
Proof.
  intros H. apply postLike_created in H. destruct H as (uid & Hu & _ & _ & _ & ->).
  exists uid. split; [exact Hu|]. split; [reflexivity|]. split; [reflexivity|].
  unfold likesOfReview, likeExists. cbn [reviewLikes]. split.
  - intros r. rewrite filter_app, length_app. cbn [filter like_reviewId].
    destruct (r =? reviewId); cbn; lia.
  - intros r u. rewrite existsb_app. cbn.
    now rewrite orb_false_r, (Z.eqb_sym reviewId), (Z.eqb_sym uid).
Qed.

Section AfterWrites.

Variable P : Platform.

(** X7: after a like is accepted, the community feed of the user who
    liked shows the review with one more like and [isLiked], and every other
    row with the count and flag it had. *)
Theorem like_shows_in_community (db db' : Database) (uid reviewId now : Z)
        (req : FeedRequest)
        (reply : Reply (list (CommunityRow (option LocationData)))) :
  postLike db (Some uid) reviewId now
  = (Message 201 "message" "Review liked successfully", db') ->
  req_user req = Some uid ->
  getCommunity P db' req reply ->
  exists rows,
    reply = Json 200 rows
    /\ Forall (fun row =>
                 if community_id row =? reviewId then
                   likes (community_cols row) = likesOfReview db reviewId + 1
                   /\ isLiked (community_cols row) = true
                 else
                   likes (community_cols row) = likesOfReview db (community_id row)
                   /\ isLiked (community_cols row)
                      = likeExists db (community_id row) uid)
              rows.
Proof.
  intros Hlike Hreq. apply liked_counts in Hlike.
  destruct Hlike as (uid' & Hu & _ & _ & Hcount & Hflag).
  unfold getCommunity. rewrite Hreq. cbn [isAuthenticated negb]. rewrite Hu.
  assert (uid' = uid) as ->.
  { cbn in Hu. destruct (uid =? 0); congruence. }
  intros (raw & Hord & ->). eexists. split; [reflexivity|].
  apply Forall_map, Forall_forall. intros row Hin.
  apply (orderBy_desc_In _ _ _ _ Hord) in Hin.
  apply communityQuery_row in Hin. destruct Hin as (r & u & _ & _ & _ & ->).
  unfold community_id. cbn. rewrite Hcount, Hflag, Z.eqb_refl.
  destruct (review_id r =? reviewId) eqn:E; cbn.
  - apply Z.eqb_eq in E. rewrite E. split; [reflexivity | apply orb_true_r].
  - split; [lia | apply orb_false_r].
Qed.

(** X8: a review that was created is public whether or not it was
    posted to a group: it is in the community feed of every authenticated
    viewer. *)
Theorem created_review_is_public (db db' : Database) (user : option Z)
        (body : ReviewBody) (now : Z) (created : CreatedReview)
        (req : FeedRequest)
        (reply : Reply (list (CommunityRow (option LocationData)))) :
  postReview P db user body now = (Json 201 created, db') ->
  req_user req <> None ->
  getCommunity P db' req reply ->
  isPublic (created_review created) = true
  /\ groupId (created_review created) = truthy_int (body_groupId body)
  /\ exists rows,
      reply = Json 200 rows
      /\ In (review_id (created_review created)) (map community_id rows).
Proof.
  unfold postReview. destruct (truthy_id user) as [uid|]; [|discriminate].
  destruct (truthy_string (body_placeId body)) as [place|]; [|discriminate].
  destruct (truthy_int (body_rating body)) as [stars|]; [|discriminate].
  rewrite membershipRefusal_cases.
  destruct (negb (groupIdInRange (body_groupId body))); [discriminate|].
  destruct (memberCheck db uid (body_groupId body)); [|discriminate].
  destruct (processLocation P (body_location body) JUndefined JUndefined)
    as [processed|]; [|discriminate].
  unfold insertReview. destruct (reviewAccepted db _); [|discriminate].
  cbn [users]. destruct (filter (fun u => user_id u =? uid) (users db))
    as [|author others] eqn:Hf; [discriminate|].
  intros [= <- <-] Hreq Hget. cbn [created_review isPublic groupId review_id].
  split; [reflexivity|]. split; [reflexivity|].
  unfold getCommunity in Hget. destruct (req_user req) as [viewer|]; [|congruence].
  cbn [isAuthenticated negb] in Hget. destruct Hget as (raw & Hord & ->).
  eexists. split; [reflexivity|]. rewrite formatCommunity_id.
  apply in_map_iff.
  assert (Hauthor : In author (filter (fun u => user_id u =? uid) (users db)))
    by (rewrite Hf; now left).
  apply filter_In in Hauthor. destruct Hauthor as [Hau Hid].
  eexists. split.
  2: { apply (orderBy_desc_In _ _ _ _ Hord). apply communityQuery_row.
       eexists _, author. split; [|split; [|split; [|reflexivity]]].
       - cbn [reviews]. apply in_or_app. right. now left.
       - reflexivity.
       - unfold authors. cbn [users review_userId]. apply filter_In.
         split; [exact Hau | now rewrite Z.eqb_sym]. }
  reflexivity.
Qed.

End AfterWrites.

Lemma like_shows_in_community_witness :
  exists rows,
    runCommunity smallAngle (snd (postLike exampleDb (Some 2) 1 300)) bob
    = Json 200 rows
    /\ Forall (fun row =>
                 if community_id row =? 1 then
                   likes (community_cols row) = likesOfReview exampleDb 1 + 1
                   /\ isLiked (community_cols row) = true
                 else
                   likes (community_cols row)
                   = likesOfReview exampleDb (community_id row)
                   /\ isLiked (community_cols row)
                      = likeExists exampleDb (community_id row) 2)
              rows.
Proof.
  apply (like_shows_in_community smallAngle exampleDb
           (snd (postLike exampleDb (Some 2) 1 300)) 2 1 300 bob).
  - reflexivity.
  - reflexivity.
  - apply runCommunity_admissible.
Defined.

(** Alice posts a review to her group; Bob, who is not a member, gets it
    in the community feed. *)
Lemma created_review_is_public_witness :
  exists rows,
    runCommunity smallAngle
      (snd (postReview smallAngle exampleDb (Some 1) groupBody 200)) bob
    = Json 200 rows
    /\ In 4 (map community_id rows).
Proof.
  edestruct (created_review_is_public smallAngle exampleDb)
    with (user := Some 1) (body := groupBody) (now := 200) (req := bob)
    as (_ & _ & H);
    [reflexivity | discriminate | apply runCommunity_admissible | exact H].
Defined.

(** ** Deleting a review *)

Lemma firstn_one_empty {A : Type} (f : A -> bool) (l : list A) :
  Nat.eqb (List.length (firstn 1 (filter f l))) 0 = negb (existsb f l).
Proof.
  induction l as [|x rest IH]; cbn; [reflexivity|].
  destruct (f x); cbn; [reflexivity | exact IH].
Qed.

Lemma deleteReview_done (db db' : Database) (user : option Z) (id : Z) :
  deleteReview db user id = (Empty 204, db') ->
  exists uid,
    truthy_id user = Some uid
    /\ existsb (fun r => (review_id r =? id) && (review_userId r =? uid)) (reviews db)
       = true
    /\ reviews db' = filter (fun r => negb (review_id r =? id)) (reviews db)
    /\ reviewLikes db' = filter (fun l => negb (like_reviewId l =? id)) (reviewLikes db)
    /\ users db' = users db
    /\ follows db' = follows db
    /\ groups db' = groups db
    /\ groupMembers db' = groupMembers db.
Proof.
  unfold deleteReview. destruct (truthy_id user) as [uid|]; [|discriminate].
  destruct (negb (int4 id)); [discriminate|].
  rewrite firstn_one_empty.
  destruct (existsb _ (reviews db)) eqn:E; cbn [negb]; [|discriminate].
  intros [= <-]. exists uid. cbn. auto 10.
Qed.

(** X9: only its author can delete a review.  For an id of the
    [integer] column, anyone else, and anyone naming a review that does not
    exist, gets 403 and nothing changes; for the author the review and all
    its likes go, and no other review or like does.  An id outside the
    column's range is answered 500 and nothing changes. *)
Theorem deleteReview_owner_only (db : Database) (uid id : Z) :
  uid <> 0 ->
  (int4 id = false ->
   deleteReview db (Some uid) id
   = (Message 500 "message" "Failed to delete review", db))
  /\ (int4 id = true ->
      existsb (fun r => (review_id r =? id) && (review_userId r =? uid)) (reviews db)
      = false ->
      deleteReview db (Some uid) id
      = (Message 403 "message" "Not authorized to delete this review", db))
  /\ (int4 id = true ->
      existsb (fun r => (review_id r =? id) && (review_userId r =? uid)) (reviews db)
      = true ->
      fst (deleteReview db (Some uid) id) = Empty 204
      /\ existsb (fun r => review_id r =? id)
                 (reviews (snd (deleteReview db (Some uid) id))) = false
      /\ likesOfReview (snd (deleteReview db (Some uid) id)) id = 0
      /\ (forall r, review_id r <> id ->
                    (In r (reviews (snd (deleteReview db (Some uid) id)))
                     <-> In r (reviews db)))
      /\ (forall r, r <> id ->
                    likesOfReview (snd (deleteReview db (Some uid) id)) r
                    = likesOfReview db r)).
Proof.
  intros Hid. unfold deleteReview.
  rewrite (truthy_id_nonzero uid Hid).
  split; [intros ->; reflexivity|].
  rewrite firstn_one_empty. split; intros -> ->; cbn [negb].
  - reflexivity.
  - cbn [fst snd reviews reviewLikes]. split; [reflexivity|].
    unfold likesOfReview. cbn [reviewLikes]. split; [|split; [|split]].
    + rewrite existsb_filter_and. induction (reviews db) as [|r rest IH]; cbn;
        [reflexivity|]. rewrite IH. now destruct (review_id r =? id).
    + induction (reviewLikes db) as [|l rest IH]; cbn; [reflexivity|].
      destruct (Z.eqb_spec (like_reviewId l) id) as [E|E]; cbn; [exact IH|].
      destruct (Z.eqb_spec id (like_reviewId l)); [congruence | exact IH].
    + intros r Hne. rewrite filter_In.
      destruct (Z.eqb_spec (review_id r) id); [contradiction|]. cbn. tauto.
    + intros r Hne. f_equal. f_equal.
      induction (reviewLikes db) as [|l rest IH]; cbn; [reflexivity|].
      destruct (Z.eqb_spec (like_reviewId l) id) as [E|E]; cbn.
      * destruct (Z.eqb_spec r (like_reviewId l)); [congruence | exact IH].
      * now rewrite IH.
Qed.

(** Bob is not the author of review 3. *)
Lemma deleteReview_owner_only_witness :
  deleteReview exampleDb (Some 2) 3
  = (Message 403 "message" "Not authorized to delete this review", exampleDb).
Proof.
  destruct (deleteReview_owner_only exampleDb 2 3) as (_ & H & _); [lia|].
  apply H; reflexivity.
Defined.

Lemma userReviewsQuery_row (db : Database) (uid : Z) (row : OwnRow) :
  In row (userReviewsQuery db uid) ->
  exists r, In r (reviews db) /\ review_userId r = uid
            /\ own_id row = review_id r
            /\ own_likes row = likesOfReview db (review_id r).
Proof.
  unfold userReviewsQuery. rewrite in_map_iff. intros (r & <- & Hin).
  apply filter_In in Hin. destruct Hin as [Hin Hu]. apply Z.eqb_eq in Hu.
  exists r. auto.
Qed.

Section AfterDelete.

Variable P : Platform.

(** X10: a deleted review is in no feed: not in the community,
    following, place, group or own-reviews reply of any viewer. *)
Theorem deleted_review_leaves_feeds (db db' : Database) (user viewer : option Z)
        (id group : Z) (place : string) (req : FeedRequest)
        (community : Reply (list (CommunityRow (option LocationData))))
        (following byPlace : Reply (list (LikedRow (option LocationData))))
        (byGroup : Reply (list GroupRow)) (own : Reply (list OwnRow)) :
  deleteReview db user id = (Empty 204, db') ->
  getCommunity P db' req community ->
  getFollowing P db' req following ->
  getPlace P db' req place byPlace ->
  getGroupReviews db' req group byGroup ->
  getUserReviews db' viewer own ->
  match community with Json _ rows => ~ In id (map community_id rows) | _ => True end
  /\ match following with Json _ rows => ~ In id (map liked_id rows) | _ => True end
  /\ match byPlace with Json _ rows => ~ In id (map liked_id rows) | _ => True end
  /\ match byGroup with Json _ rows => ~ In id (map group_row_id rows) | _ => True end
  /\ match own with Json _ rows => ~ In id (map own_id rows) | _ => True end.
Proof.
  intros Hdel. apply deleteReview_done in Hdel.
  destruct Hdel as (uid & _ & _ & Hrev & _).
  assert (Hgone : forall r, In r (reviews db') -> review_id r <> id).
  { intros r Hin. rewrite Hrev in Hin. apply filter_In in Hin.
    destruct Hin as [_ Hne]. apply negb_true_iff in Hne. now apply Z.eqb_neq. }
  unfold getCommunity, getFollowing, getPlace, getGroupReviews, getUserReviews.
  intros Hc Hf Hp Hg Ho. split; [|split; [|split; [|split]]].
  - destruct (negb (isAuthenticated (req_user req))); [now subst|].
    destruct Hc as (raw & Hord & ->). rewrite map_map, in_map_iff.
    intros (row & Hid & Hin). apply (orderBy_desc_In _ _ _ _ Hord) in Hin.
    apply communityQuery_row in Hin. destruct Hin as (r & u & Hr & _ & _ & ->).
    now apply (Hgone r Hr).
  - destruct (truthy_id (req_user req)); [|now subst].
    destruct Hf as (raw & Hord & ->). rewrite map_map, in_map_iff.
    intros (row & Hid & Hin). apply (orderBy_desc_In _ _ _ _ Hord) in Hin.
    apply followingQuery_row in Hin.
    destruct Hin as (r & u & Hr & _ & _ & _ & ->). now apply (Hgone r Hr).
  - destruct (truthy_id (req_user req)); [|now subst].
    destruct (negb (pg_text place)); [now subst|].
    destruct Hp as (raw & Hord & ->). rewrite map_map, in_map_iff.
    intros (row & Hid & Hin). apply (orderBy_desc_In _ _ _ _ Hord) in Hin.
    apply placeQuery_row in Hin. destruct Hin as (r & u & Hr & _ & ->).
    now apply (Hgone r Hr).
  - destruct (truthy_id (req_user req)); [|now subst].
    destruct (negb (int4 group)); [now subst|].
    destruct (Nat.eqb _ 0); [now subst|].
    destruct Hg as (rows & Hord & ->). rewrite in_map_iff.
    intros (row & Hid & Hin). apply (orderBy_desc_In _ _ _ _ Hord) in Hin.
    apply groupQuery_row in Hin. destruct Hin as (r & Hr & _ & Hrow).
    apply (Hgone r Hr). congruence.
  - destruct (truthy_id viewer); [|now subst].
    destruct Ho as (rows & Hord & ->). rewrite in_map_iff.
    intros (row & Hid & Hin). apply (orderBy_desc_In _ _ _ _ Hord) in Hin.
    apply userReviewsQuery_row in Hin. destruct Hin as (r & Hr & _ & Hrow & _).
    apply (Hgone r Hr). congruence.
Qed.

End AfterDelete.

Lemma runUserReviews_admissible (db : Database) (user : option Z) :
  getUserReviews db user (runUserReviews db user).
Proof.
  unfold getUserReviews, runUserReviews. destruct (truthy_id user); [|reflexivity].
  eexists. split; [apply sort_desc_admissible | reflexivity].
Qed.

(** Bob deletes his review 1. *)
Lemma deleted_review_leaves_feeds_witness :
  match runCommunity smallAngle (snd (deleteReview exampleDb (Some 2) 1)) alice with
  | Json _ rows => ~ In 1 (map community_id rows)
  | _ => True
  end.
Proof.
  apply (deleted_review_leaves_feeds smallAngle exampleDb
           (snd (deleteReview exampleDb (Some 2) 1)) (Some 2) (Some 2) 1 1 "p1" alice
           (runCommunity smallAngle (snd (deleteReview exampleDb (Some 2) 1)) alice)
           (runFollowing smallAngle (snd (deleteReview exampleDb (Some 2) 1)) alice)
           (runPlace smallAngle (snd (deleteReview exampleDb (Some 2) 1)) alice "p1")
           (runGroupReviews (snd (deleteReview exampleDb (Some 2) 1)) alice 1)
           (runUserReviews (snd (deleteReview exampleDb (Some 2) 1)) (Some 2))).
  - reflexivity.
  - apply runCommunity_admissible.
  - apply runFollowing_admissible.
  - apply runPlace_admissible.
  - apply runGroupReviews_admissible.
  - apply runUserReviews_admissible.
Defined.

(** ** The own-reviews and place feeds *)

(** X11: GET /reviews answers 401 without a session; with one it
    returns exactly the caller's reviews, public or not, newest first, each
    with its like count. *)
Theorem own_reviews_feed (db : Database) (user : option Z) (reply : Reply (list OwnRow)) :
  getUserReviews db user reply ->
  match truthy_id user with
  | None => reply = Message 401 "message" "Not authenticated"
  | Some uid =>
      exists rows,
        reply = Json 200 rows
        /\ Permutation (map own_id rows)
                       (map review_id
                            (filter (fun r => review_userId r =? uid) (reviews db)))
        /\ StronglySorted (fun a b => own_createdAt b <= own_createdAt a) rows
        /\ Forall (fun row => own_likes row = likesOfReview db (own_id row)) rows
  end.
Proof.
  unfold getUserReviews. destruct (truthy_id user) as [uid|]; [|trivial].
  intros (rows & Hord & ->). exists rows. split; [reflexivity|]. split; [|split].
  - replace (map review_id (filter (fun r => review_userId r =? uid) (reviews db)))
      with (map own_id (userReviewsQuery db uid))
      by (unfold userReviewsQuery; now rewrite map_map).
    exact (orderBy_desc_map _ _ _ _ Hord).
  - exact (proj2 Hord).
  - apply Forall_forall. intros row Hin.
    apply (orderBy_desc_In _ _ _ _ Hord) in Hin.
    apply userReviewsQuery_row in Hin. destruct Hin as (r & _ & _ & Hid & Hl).
    now rewrite Hl, Hid.
Qed.

(** Alice's only review is private. *)
Lemma own_reviews_feed_witness :
  exists rows,
    runUserReviews exampleDb (Some 1) = Json 200 rows
    /\ Permutation (map own_id rows)
                   (map review_id
                        (filter (fun r => review_userId r =? 1) (reviews exampleDb)))
    /\ StronglySorted (fun a b => own_createdAt b <= own_createdAt a) rows
    /\ Forall (fun row => own_likes row = likesOfReview exampleDb (own_id row)) rows.
Proof.
  apply (own_reviews_feed exampleDb (Some 1)). apply runUserReviews_admissible.
Defined.

Lemma authors_at_most_one (db : Database) (r : Review) :
  distinct (map user_id (users db)) = true ->
  authors db r = [] \/ exists u, authors db r = [u].
Proof.
  intros Hd. unfold authors.
  destruct (existsb (fun u => user_id u =? review_userId r) (users db)) eqn:E.
  - right. now apply primary_key_lookup.
  - left. apply filter_none. rewrite <- E. apply existsb_ext_in.
    intros u. apply Z.eqb_sym.
Qed.

Section PlaceFeed.

Variable P : Platform.

(** X12: the place feed has no [isPublic] filter.  A request without a
    session is answered 401 by the middleware of the likes router, which is
    mounted before the reviews router; with a session, and for a place id
    that is a text of the database, the feed returns exactly the reviews of
    the place, private and group reviews included, each with the viewer's
    [isLiked]. *)
Theorem place_feed_unfiltered (db : Database) (req : FeedRequest) (place : string)
        (reply : Reply (list (LikedRow (option LocationData)))) :
  distinct (map user_id (users db)) = true ->
  getPlace P db req place reply ->
  match truthy_id (req_user req) with
  | None => reply = Message 401 "error" "Not logged in"
  | Some viewer =>
      if pg_text place then
        exists rows,
          reply = Json 200 rows
          /\ Permutation (map liked_id rows)
                         (map review_id
                              (filter (fun r => String.eqb (placeId r) place)
                                      (reviews db)))
          /\ Forall (fun row => isLiked row = likeExists db (liked_id row) viewer)
                    rows
      else reply = Message 500 "error" "Failed to fetch reviews"
  end.
Proof.
  intros Hd. unfold getPlace.
  destruct (truthy_id (req_user req)) as [viewer|]; [|trivial].
  destruct (pg_text place); cbn [negb]; [|trivial].
  intros (raw & Hord & ->). eexists. split; [reflexivity|]. split.
  - rewrite map_map.
    replace (map review_id (filter (fun r => String.eqb (placeId r) place) (reviews db)))
      with (map (fun row : LikedRow value => col_id (liked_cols row))
                (placeQuery db place (Some viewer))).
    { exact (orderBy_desc_map _ _ _ _ Hord). }
    unfold placeQuery. apply map_flat_map_filter. intros r _.
    destruct (String.eqb (placeId r) place); [|reflexivity].
    destruct (authors_at_most_one db r Hd) as [-> | [u ->]]; reflexivity.
  - apply Forall_map, Forall_forall. intros row Hin.
    apply (orderBy_desc_In _ _ _ _ Hord) in Hin.
    apply placeQuery_row in Hin. destruct Hin as (r & u & _ & _ & ->).
    reflexivity.
Qed.

End PlaceFeed.

(** Place "p1" has the public review 1 and the private group review 3;
    Bob, who is in no group, gets both. *)
Lemma place_feed_unfiltered_witness :
  exists rows,
    runPlace smallAngle exampleDb bob "p1" = Json 200 rows
    /\ Permutation (map liked_id rows)
                   (map review_id
                        (filter (fun r => String.eqb (placeId r) "p1")
                                (reviews exampleDb)))
    /\ Forall (fun row => isLiked row = likeExists exampleDb (liked_id row) 2) rows.
Proof.
  apply (place_feed_unfiltered smallAngle exampleDb bob "p1").
  - reflexivity.
  - apply runPlace_admissible.
Defined.

(** Without a session the request does not reach the handler. *)
Example runPlace_anonymous :
  runPlace smallAngle exampleDb anonymous "p1" = Message 401 "error" "Not logged in".
Proof. reflexivity. Qed.

(** ** No review twice, and the like count of the following feed *)

Lemma distinct_NoDup (l : list Z) : distinct l = true -> NoDup l.
Proof.
  induction l as [|x rest IH]; cbn; [constructor|].
  intros H. apply andb_true_iff in H. destruct H as [Hx Hr].
  constructor; [|now apply IH].
  intros Hin. apply negb_true_iff in Hx.
  assert (existsb (Z.eqb x) rest = true)
    by (apply existsb_exists; exists x; split; [exact Hin | apply Z.eqb_refl]).
  congruence.
Qed.

Lemma NoDup_map_filter {A : Type} (f : A -> Z) (c : A -> bool) (l : list A) :
  NoDup (map f l) -> NoDup (map f (filter c l)).
Proof.
  induction l as [|x rest IH]; cbn; [trivial|].
  intros H. inversion H as [|? ? Hx Hr]; subst.
  destruct (c x); cbn; [|now apply IH].
  constructor; [|now apply IH].
  intros Hin. apply Hx. apply in_map_iff in Hin. destruct Hin as (y & Hy & Hin).
  apply filter_In in Hin. apply in_map_iff. exists y. tauto.
Qed.

Lemma schema_ok_review_ids (db : Database) (c : Review -> bool) :
  schema_ok db = true -> NoDup (map review_id (filter c (reviews db))).
Proof.
  unfold schema_ok. intros H. apply andb_true_iff in H. destruct H as [H _].
  apply andb_true_iff in H. destruct H as [_ H].
  now apply NoDup_map_filter, distinct_NoDup.
Qed.

Lemma unique_edge (db : Database) (viewer : Z) (r : Review) :
  unique_follows db = true ->
  followed db viewer (review_userId r) = true ->
  List.length (followEdges db viewer r) = 1%nat.
Proof.
  unfold unique_follows, followed, followEdges.
  induction (follows db) as [|f rest IH]; cbn; [discriminate|].
  intros Hu Hf. apply andb_true_iff in Hu. destruct Hu as [Hfresh Hu].
  rewrite (Z.eqb_sym (review_userId r)), (andb_comm (followingId f =? _)).
  destruct ((followerId f =? viewer) && (followingId f =? review_userId r)) eqn:E.
  - cbn. f_equal. apply andb_true_iff in E. destruct E as [E1 E2].
    apply Z.eqb_eq in E1, E2. apply negb_true_iff in Hfresh.
    rewrite existsb_map in Hfresh.
    replace (filter _ rest) with (@nil Follow); [reflexivity|].
    symmetry. apply filter_none. rewrite <- Hfresh. apply existsb_ext_in.
    intros g. unfold pair_eqb. cbn. rewrite E1, E2.
    now rewrite (Z.eqb_sym viewer), (Z.eqb_sym (review_userId r)), andb_comm.
  - cbn in Hf. now apply IH.
Qed.

Section FeedShape.

Variable P : Platform.

(** X13: no feed lists a review twice, however many likes or follow
    rows join with it. *)
Theorem feeds_list_each_review_once (db : Database) (req : FeedRequest) (group : Z)
        (community : Reply (list (CommunityRow (option LocationData))))
        (following : Reply (list (LikedRow (option LocationData))))
        (byGroup : Reply (list GroupRow)) :
  schema_ok db = true ->
  getCommunity P db req community ->
  getFollowing P db req following ->
  getGroupReviews db req group byGroup ->
  match community with Json _ rows => NoDup (map community_id rows) | _ => True end
  /\ match following with Json _ rows => NoDup (map liked_id rows) | _ => True end
  /\ match byGroup with Json _ rows => NoDup (map group_row_id rows) | _ => True end.
Proof.
  intros Hok. unfold getCommunity, getFollowing, getGroupReviews.
  intros Hc Hf Hg. split; [|split].
  - destruct (negb (isAuthenticated (req_user req))); [now subst|].
    destruct Hc as (raw & Hord & ->). rewrite formatCommunity_id.
    eapply Permutation_NoDup;
      [symmetry; exact (orderBy_desc_map _ _ _ _ Hord)|].
    rewrite (communityQuery_ids db _ Hok). now apply schema_ok_review_ids.
  - destruct (truthy_id (req_user req)) as [viewer|]; [|now subst].
    destruct Hf as (raw & Hord & ->). rewrite map_map.
    change (map (fun x => liked_id (formatLiked P req x)) raw)
      with (map (fun row : LikedRow value => col_id (liked_cols row)) raw).
    eapply Permutation_NoDup;
      [symmetry; exact (orderBy_desc_map _ _ _ _ Hord)|].
    rewrite (followingQuery_ids db viewer Hok). now apply schema_ok_review_ids.
  - destruct (truthy_id (req_user req)) as [viewer|]; [|now subst].
    destruct (negb (int4 group)); [now subst|].
    destruct (Nat.eqb _ 0); [now subst|].
    destruct Hg as (rows & Hord & ->).
    eapply Permutation_NoDup;
      [symmetry; exact (orderBy_desc_map _ _ _ _ Hord)|].
    rewrite (groupQuery_ids db group Hok). now apply schema_ok_review_ids.
Qed.

(** X14: when the viewer has one follow row per followed user, the
    following feed gives each review its number of like rows and tells
    whether the viewer likes it. *)
Theorem following_feed_counts_likes (db : Database) (req : FeedRequest) (viewer : Z)
        (reply : Reply (list (LikedRow (option LocationData)))) :
  unique_follows db = true ->
  truthy_id (req_user req) = Some viewer ->
  getFollowing P db req reply ->
  exists rows,
    reply = Json 200 rows
    /\ Forall (fun row => likes row = likesOfReview db (liked_id row)
                          /\ isLiked row = likeExists db (liked_id row) viewer)
              rows.
Proof.
  intros Hu Hv. unfold getFollowing. rewrite Hv. intros (raw & Hord & ->).
  eexists. split; [reflexivity|]. apply Forall_map, Forall_forall.
  intros row Hin. apply (orderBy_desc_In _ _ _ _ Hord) in Hin.
  apply followingQuery_row in Hin. destruct Hin as (r & u & _ & _ & _ & Hf & ->).
  unfold liked_id. cbn. split; [|reflexivity].
  rewrite (unique_edge db viewer r Hu Hf), Nat.mul_1_r. reflexivity.
Qed.

End FeedShape.

Lemma feeds_list_each_review_once_witness :
  match runCommunity smallAngle exampleDb alice with
  | Json _ rows => NoDup (map community_id rows)
  | _ => True
  end.
Proof.
  apply (feeds_list_each_review_once smallAngle exampleDb alice 1
           (runCommunity smallAngle exampleDb alice)
           (runFollowing smallAngle exampleDb alice)
           (runGroupReviews exampleDb alice 1)).
  - reflexivity.
  - apply runCommunity_admissible.
  - apply runFollowing_admissible.
  - apply runGroupReviews_admissible.
Defined.

Lemma following_feed_counts_likes_witness :
  exists rows,
    runFollowing smallAngle exampleDb alice = Json 200 rows
    /\ Forall (fun row => likes row = likesOfReview exampleDb (liked_id row)
                          /\ isLiked row = likeExists exampleDb (liked_id row) 1)
              rows.
Proof.
  apply (following_feed_counts_likes smallAngle exampleDb alice 1).
  - reflexivity.
  - reflexivity.
  - apply runFollowing_admissible.
Defined.

(** ** Stored locations and the distance annotation *)

Section Locations.

Variable P : Platform.

Local Open Scope float_scope.

Lemma or_else_idempotent (a : value) :
  or_else (or_else a (JStr "")) (JStr "") = or_else a (JStr "").
Proof. unfold or_else. destruct (ToBoolean a) eqn:E; [now rewrite E | reflexivity]. Qed.








Lemma calculateDistance_of_numbers (a b c d : float) :
  calculateDistance P (JNum a) (JNum b) (JNum c) (JNum d)
  = if is_nan a || is_nan b || is_nan c || is_nan d
    then None else Some (toFixed1 (haversine_km P a b c d)).
Proof.
  destruct (is_nan a) eqn:Ha, (is_nan b) eqn:Hb, (is_nan c) eqn:Hc, (is_nan d) eqn:Hd;
    cbn [orb];
    try (now apply calculateDistance_numbers);
    apply calculateDistance_invalid; unfold isNaN; cbn [ToNumber];
    repeat first [ apply Exists_cons_hd; right; right; assumption
                 | apply Exists_cons_tl ].
Qed.

(** X16: the viewer's coordinates change nothing but the distance: the
    location is the one returned without them, and it carries a distance
    exactly when [userLat] and [userLng] are numbers and neither they nor the
    stored coordinates are [NaN]. *)
Theorem distance_needs_viewer_coordinates (location userLat userLng : value)
        (l : LocationData) :
  processLocation P location userLat userLng = Some l ->
  processLocation P location JUndefined JUndefined
  = Some {| coordinates := coordinates l;
            formatted_address := formatted_address l;
            distance := None |}
  /\ distance l
     = match userLat, userLng with
       | JNum a, JNum b =>
           if is_nan a || is_nan b
              || is_nan (fst (coordinates l)) || is_nan (snd (coordinates l))
           then None
           else Some (toFixed1 (haversine_km P a b (fst (coordinates l))
                                             (snd (coordinates l))))
       | _, _ => None
       end.
Proof.
  intros H. destruct (hasCoordinates location) eqn:Hc.
  2: { rewrite (processLocation_null P location _ _ Hc) in H. discriminate. }
  rewrite (processLocation_plain P location Hc).
  revert H. unfold processLocation.
  pose proof Hc as Hc'. unfold hasCoordinates in Hc'.
  apply andb_true_iff in Hc'. destruct Hc' as [Hc' Hlng].
  apply andb_true_iff in Hc'. destruct Hc' as [Hc' Hlat].
  apply andb_true_iff in Hc'. destruct Hc' as [Hloc Hobj].
  rewrite Hloc, Hobj, Hlat, Hlng. cbn [negb orb].
  rewrite !(get_truthy_base location) by exact Hloc.
  rewrite (get_truthy_field _ "lat") by exact Hlat.
  rewrite (get_truthy_field _ "lng") by exact Hlng.
  cbn [coordinates formatted_address fst snd].
  destruct userLat as [| | |a| | |]; cbn [typeof_number andb];
    try (intros [= <-]; split; reflexivity).
  destruct userLng as [| | |b| | |]; cbn [typeof_number andb];
    try (intros [= <-]; split; reflexivity).
  rewrite calculateDistance_of_numbers.
  destruct (is_nan a || is_nan b || _ || _) eqn:E; intros [= <-];
    cbn [coordinates formatted_address distance fst snd]; rewrite E;
    split; reflexivity.
Qed.

End Locations.


(** An address that JSON cannot keep: [Infinity] is stored as [null] and
    read back as the empty string. *)
Example stored_address_not_kept :
  exists l,
    processLocation smallAngle
      (JObj [ ("coordinates", JObj [ ("lat", JNum 40.7128); ("lng", JNum (-74.006)) ]);
              ("formatted_address", JNum infinity) ])
      JUndefined JUndefined = Some l
    /\ formatted_address l = JNum infinity
    /\ option_map formatted_address
         (formatLocation smallAngle JUndefined JUndefined (location_json l))
       = Some (JStr "").
Proof. eexists. repeat split. Qed.

Lemma distance_needs_viewer_coordinates_witness :
  exists l,
    processLocation smallAngle newYork (JNum 37.7749%float) JUndefined = Some l
    /\ distance l = None.
Proof.
  eexists. split; [reflexivity|].
  apply (distance_needs_viewer_coordinates smallAngle newYork
           (JNum 37.7749%float) JUndefined).
  reflexivity.
Defined.

(** ** Group membership *)

Lemma membership_found (db : Database) (g user : Z) :
  Nat.ltb 0 (List.length (membership db g user)) = isMember db g user.
Proof.
  unfold membership, isMember.
  induction (groupMembers db) as [|m rest IH]; cbn; [reflexivity|].
  destruct ((member_groupId m =? g) && (member_userId m =? user)); cbn;
    [reflexivity | exact IH].
Qed.

Lemma isMember_added (db : Database) (m : GroupMember) (g u : Z) :
  isMember (with_groupMembers db (groupMembers db ++ [m])) g u
  = isMember db g u || ((member_groupId m =? g) && (member_userId m =? u)).
Proof. unfold isMember. cbn. rewrite existsb_app. cbn. now rewrite orb_false_r. Qed.

Lemma isMember_removed (db : Database) (group uid g u : Z) :
  isMember (with_groupMembers db
              (filter (fun m => negb ((member_groupId m =? group)
                                      && (member_userId m =? uid)))
                      (groupMembers db))) g u
  = isMember db g u && negb ((g =? group) && (u =? uid)).
Proof.
  unfold isMember. cbn. rewrite existsb_filter_and.
  induction (groupMembers db) as [|m rest IH]; cbn; [reflexivity|].
  rewrite IH.
  destruct (Z.eqb_spec (member_groupId m) g) as [E1|]; cbn;
    [|now destruct (existsb _ rest)].
  destruct (Z.eqb_spec (member_userId m) u) as [E2|]; cbn;
    [|now destruct (existsb _ rest)].
  rewrite E1, E2. destruct ((g =? group) && (u =? uid)); cbn; [|reflexivity].
  now rewrite andb_false_r.
Qed.

Lemma pair_differs (a b c d : Z) : a <> c \/ b <> d -> (a =? c) && (b =? d) = false.
Proof.
  intros [H|H]; [apply Z.eqb_neq in H; now rewrite H|].
  apply Z.eqb_neq in H. rewrite H. apply andb_false_r.
Qed.

(** X17: joining a group twice is refused with 400 and joining a group
    that does not exist fails with 500, both without a write; otherwise the
    user becomes a member and no other membership changes. *)
Theorem joinGroup_outcomes (db : Database) (uid group newId : Z) :
  uid <> 0 ->
  (isMember db group uid = true ->
   joinGroup db (Some uid) group newId
   = (Message 400 "message" "Already a member of this group", db))
  /\ (isMember db group uid = false ->
      existsb (fun grp => group_id grp =? group) (groups db) = false ->
      joinGroup db (Some uid) group newId
      = (Message 500 "message" "Failed to join group", db))
  /\ (isMember db group uid = false ->
      existsb (fun grp => group_id grp =? group) (groups db) = true ->
      existsb (fun u => user_id u =? uid) (users db) = true ->
      fst (joinGroup db (Some uid) group newId)
      = Message 201 "message" "Successfully joined group"
      /\ isMember (snd (joinGroup db (Some uid) group newId)) group uid = true
      /\ forall g u,
          g <> group \/ u <> uid ->
          isMember (snd (joinGroup db (Some uid) group newId)) g u = isMember db g u).
Proof.
  intros Hid. unfold joinGroup.
  rewrite (truthy_id_nonzero uid Hid), membership_found. split; [|split].
  - now intros ->.
  - intros -> Hg. unfold insertMember. cbn [member_groupId]. now rewrite Hg.
  - intros -> Hg Hu. unfold insertMember. cbn [member_groupId member_userId].
    rewrite Hg, Hu. cbn [andb fst snd]. split; [reflexivity|]. split.
    + rewrite isMember_added. cbn. rewrite !Z.eqb_refl. apply orb_true_r.
    + intros g u Hne. rewrite isMember_added. cbn.
      rewrite (Z.eqb_sym group), (Z.eqb_sym uid), (pair_differs _ _ _ _ Hne).
      apply orb_false_r.
Qed.

(** Bob joins group 1. *)
Lemma joinGroup_outcomes_witness :
  isMember (snd (joinGroup exampleDb (Some 2) 1 2)) 1 2 = true.
Proof.
  destruct (joinGroup_outcomes exampleDb 2 1 2) as (_ & _ & H); [lia|].
  apply H; reflexivity.
Defined.

(** X18: for a group id of the [integer] column leaving answers 204,
    whatever the role; it ends the caller's membership of that group and no
    other, and changes nothing for a user who was not a member.  A group id
    outside the column's range is answered 500 and nothing changes. *)
Theorem leaveGroup_scope (db : Database) (uid group : Z) :
  uid <> 0 ->
  (int4 group = true ->
   fst (leaveGroup db (Some uid) group) = Empty 204
   /\ isMember (snd (leaveGroup db (Some uid) group)) group uid = false
   /\ (forall g u,
          g <> group \/ u <> uid ->
          isMember (snd (leaveGroup db (Some uid) group)) g u = isMember db g u)
   /\ (isMember db group uid = false -> snd (leaveGroup db (Some uid) group) = db))
  /\ (int4 group = false ->
      leaveGroup db (Some uid) group
      = (Message 500 "message" "Failed to leave group", db)).
Proof.
  intros Hid. unfold leaveGroup. rewrite (truthy_id_nonzero uid Hid).
  split; intros ->; cbn [negb]; [|reflexivity].
  cbn [fst snd]. split; [reflexivity|]. split; [|split].
  - rewrite isMember_removed, !Z.eqb_refl. apply andb_false_r.
  - intros g u Hne. rewrite isMember_removed, (pair_differs _ _ _ _ Hne).
    apply andb_true_r.
  - intros Hm. unfold with_groupMembers.
    rewrite filter_negb_none by exact Hm. now destruct db.
Qed.

(** Alice, the admin of group 1, leaves it. *)
Lemma leaveGroup_scope_witness :
  fst (leaveGroup exampleDb (Some 1) 1) = Empty 204
  /\ isMember (snd (leaveGroup exampleDb (Some 1) 1)) 1 1 = false.
Proof.
  destruct (leaveGroup_scope exampleDb 1 1) as [H _]; [lia|].
  destruct (H eq_refl) as (H1 & H2 & _). split; [exact H1 | exact H2].
Defined.

(** X19: joining and leaving keep at most one membership row per group
    and user. *)
Theorem members_stay_unique (db : Database) (user : option Z) (group newId : Z) :
  unique_members db = true ->
  unique_members (snd (joinGroup db user group newId)) = true
  /\ unique_members (snd (leaveGroup db user group)) = true.
Proof.
  intros Hu. split.
  - unfold joinGroup. destruct (truthy_id user) as [uid|]; [|exact Hu].
    rewrite membership_found. destruct (isMember db group uid) eqn:Hm; [exact Hu|].
    unfold insertMember. destruct (_ && _); [|exact Hu].
    unfold unique_members. cbn [snd with_groupMembers groupMembers].
    rewrite map_app. cbn [map member_groupId member_userId].
    rewrite distinct_pairs_snoc. fold (unique_members db). rewrite Hu.
    rewrite existsb_map.
    replace (existsb _ (groupMembers db)) with (isMember db group uid);
      [now rewrite Hm|].
    unfold isMember. apply existsb_ext_in. intros m. unfold pair_eqb. cbn.
    now rewrite (Z.eqb_sym group), (Z.eqb_sym uid).
  - unfold leaveGroup. destruct (truthy_id user) as [uid|]; [|exact Hu].
    destruct (negb (int4 group)); [exact Hu|].
    unfold unique_members. cbn [snd with_groupMembers groupMembers].
    now apply distinct_pairs_filter.
Qed.

Lemma members_stay_unique_witness :
  unique_members (snd (joinGroup exampleDb (Some 2) 1 2)) = true
  /\ unique_members (snd (leaveGroup exampleDb (Some 2) 1)) = true.
Proof. apply members_stay_unique. reflexivity. Defined.

Section MemberOnly.

Variable P : Platform.

(** X20: membership opens and closes the group, for a group id of the
    [integer] column: after a join the group feed answers with the reviews;
    after a leave it answers 403, and so does POST /reviews for that
    group. *)
Theorem membership_opens_group (db : Database) (uid group newId : Z)
        (req : FeedRequest) :
  uid <> 0 ->
  req_user req = Some uid ->
  int4 group = true ->
  (forall db' reply,
      joinGroup db (Some uid) group newId
      = (Message 201 "message" "Successfully joined group", db') ->
      getGroupReviews db' req group reply ->
      exists rows, reply = Json 200 rows)
  /\ (forall reply,
         getGroupReviews (snd (leaveGroup db (Some uid) group)) req group reply ->
         reply = Message 403 "message" "Not a member of this group")
  /\ (forall body now place stars,
         truthy_string (body_placeId body) = Some place ->
         truthy_int (body_rating body) = Some stars ->
         truthy_int (body_groupId body) = Some group ->
         fst (postReview P (snd (leaveGroup db (Some uid) group)) (Some uid) body now)
         = Message 403 "error" "Not a member of this group").
Proof.
  intros Hid Hreq Hrange.
  assert (Hleft : isMember (snd (leaveGroup db (Some uid) group)) group uid = false).
  { unfold leaveGroup. rewrite (truthy_id_nonzero uid Hid), Hrange. cbn [negb snd].
    rewrite isMember_removed, !Z.eqb_refl. apply andb_false_r. }
  split; [|split].
  - intros db' reply. unfold joinGroup.
    rewrite (truthy_id_nonzero uid Hid), membership_found.
    destruct (isMember db group uid); [discriminate|].
    unfold insertMember. destruct (_ && _); [|discriminate].
    intros [= <-]. unfold getGroupReviews.
    rewrite Hreq, (truthy_id_nonzero uid Hid), Hrange, membership_empty, isMember_added.
    cbn [member_groupId member_userId]. rewrite !Z.eqb_refl, orb_true_r.
    cbn [negb andb]. intros (rows & _ & ->). now exists rows.
  - intros reply. unfold getGroupReviews.
    rewrite Hreq, (truthy_id_nonzero uid Hid), Hrange, membership_empty, Hleft.
    trivial.
  - intros body now place stars Hp Hr Hg. unfold postReview, membershipRefusal.
    rewrite (truthy_id_nonzero uid Hid), Hp, Hr, Hg, Hrange, membership_empty, Hleft.
    reflexivity.
Qed.

End MemberOnly.

(** Alice leaves group 1 and asks for its reviews. *)
Lemma membership_opens_group_witness :
  runGroupReviews (snd (leaveGroup exampleDb (Some 1) 1)) alice 1
  = Message 403 "message" "Not a member of this group".
Proof.
  destruct (membership_opens_group smallAngle exampleDb 1 1 2 alice)
    as (_ & H & _); [lia | reflexivity | reflexivity |].
  apply H. apply runGroupReviews_admissible.
Defined.

(** ** Creating a group *)

(** X21: the creator of a group is made its admin: for a name that is a
    text of the database, POST /groups answers 201 with the group, and the
    creator is then a member with the role ['admin'] who can read the
    group's reviews (the group feed answers with a list for every id that
    the [serial] of an [integer] column yields).  Without a name nothing is
    created. *)
Theorem creator_is_admin (db : Database) (uid : Z) (name : string)
        (newGroupId newMemberId : Z) :
  uid <> 0 ->
  existsb (fun u => user_id u =? uid) (users db) = true ->
  isMember db newGroupId uid = false ->
  pg_text name = true ->
  fst (postGroup db (Some uid) (Some name) newGroupId newMemberId)
  = Json 201 {| group_id := newGroupId; group_name := name |}
  /\ isMember (snd (postGroup db (Some uid) (Some name) newGroupId newMemberId))
              newGroupId uid = true
  /\ roleOf (snd (postGroup db (Some uid) (Some name) newGroupId newMemberId))
            newGroupId uid = Some "admin"
  /\ (forall req reply,
         req_user req = Some uid ->
         getGroupReviews (snd (postGroup db (Some uid) (Some name) newGroupId newMemberId))
                         req newGroupId reply ->
         if int4 newGroupId then exists rows, reply = Json 200 rows
         else reply = Message 500 "message" "Failed to fetch group reviews")
  /\ postGroup db (Some uid) None newGroupId newMemberId
     = (Message 500 "message" "Failed to create group", db).
Proof.
  intros Hid Hu Hm Hname.
  pose (newGroup := {| group_id := newGroupId; group_name := name |}).
  pose (db2 :=
          with_groupMembers
            {| users := users db; follows := follows db;
               groups := groups db ++ [newGroup];
               groupMembers := groupMembers db; reviews := reviews db;
               reviewLikes := reviewLikes db; reviews_seq := reviews_seq db;
               reviewLikes_seq := reviewLikes_seq db |}
            (groupMembers db ++
             [{| member_id := newMemberId; member_groupId := newGroupId;
                 member_userId := uid; member_role := "admin" |}])).
  assert (Hpost : postGroup db (Some uid) (Some name) newGroupId newMemberId
                  = (Json 201 newGroup, db2)).
  { unfold postGroup. rewrite (truthy_id_nonzero uid Hid), Hname, Hu.
    cbn [andb]. unfold insertMember. cbn [member_groupId member_userId group_id groups users].
    rewrite existsb_app. cbn [existsb]. rewrite Z.eqb_refl, Hu.
    now rewrite orb_true_r. }
  rewrite Hpost. cbn [fst snd].
  assert (Hin : isMember db2 newGroupId uid = true).
  { unfold isMember, db2. cbn. rewrite existsb_app. cbn. rewrite !Z.eqb_refl.
    apply orb_true_r. }
  split; [reflexivity|]. split; [exact Hin|]. split; [|split].
  - unfold roleOf, db2. cbn [with_groupMembers groupMembers]. rewrite filter_app.
    unfold isMember in Hm. rewrite (filter_none _ _ Hm). cbn.
    now rewrite !Z.eqb_refl.
  - intros req reply Hreq. unfold getGroupReviews.
    rewrite Hreq, (truthy_id_nonzero uid Hid).
    destruct (int4 newGroupId); cbn [negb]; [|trivial].
    rewrite membership_empty, Hin. cbn [negb].
    intros (rows & _ & ->). now exists rows.
  - unfold postGroup. now rewrite (truthy_id_nonzero uid Hid).
Qed.

Lemma creator_is_admin_witness :
  roleOf (snd (postGroup exampleDb (Some 2) (Some "climbers") 2 2)) 2 2 = Some "admin".
Proof. apply (creator_is_admin exampleDb 2 "climbers" 2 2); [lia | reflexivity..]. Defined.

(** ** Group messages *)

Lemma runMessages_admissible (db : Database) (messages : list GroupMessage)
      (user : option Z) (group : Z) :
  getMessages db messages user group (runMessages db messages user group).
Proof.
  unfold getMessages, runMessages. destruct (truthy_id user); [|reflexivity].
  destruct (negb (int4 group)); [reflexivity|].
  destruct (Nat.eqb _ 0); [reflexivity|].
  eexists. split; [apply sort_desc_admissible | reflexivity].
Qed.

(** X22: only members read and write a group's messages: for a group
    id of the [integer] column and anyone who is not a member, both handlers
    answer 403 and no message is stored.  For a group id outside the
    column's range both answer 500, and no message is stored either. *)
Theorem messages_members_only (db : Database) (messages : list GroupMessage)
        (uid group : Z) :
  uid <> 0 ->
  (int4 group = true ->
   isMember db group uid = false ->
   (forall reply,
       getMessages db messages (Some uid) group reply ->
       reply = Message 403 "message" "Not a member of this group")
   /\ (forall content newId now,
          postMessage db messages (Some uid) group content newId now
          = (Message 403 "message" "Not a member of this group", messages)))
  /\ (int4 group = false ->
      (forall reply,
          getMessages db messages (Some uid) group reply ->
          reply = Message 500 "message" "Failed to fetch messages")
      /\ (forall content newId now,
             postMessage db messages (Some uid) group content newId now
             = (Message 500 "message" "Failed to send message", messages))).
Proof.
  intros Hid. unfold getMessages, postMessage.
  rewrite (truthy_id_nonzero uid Hid). split.
  - intros -> Hm. rewrite membership_empty, Hm. cbn [negb].
    split; [trivial | reflexivity].
  - intros ->. cbn [negb]. split; [trivial | reflexivity].
Qed.

(** Bob is not a member of group 1. *)
Lemma messages_members_only_witness :
  runMessages exampleDb [] (Some 2) 1
  = Message 403 "message" "Not a member of this group".
Proof.
  destruct (messages_members_only exampleDb [] 2 1) as [H _]; [lia|].
  destruct (H eq_refl eq_refl) as [H1 _].
  apply H1. apply runMessages_admissible.
Defined.

(** X23: a message that was accepted is in every later listing of the
    group that its sender asks for, with the content and timestamp it was
    stored with, and no earlier message is lost. *)
Theorem posted_message_is_listed (db : Database) (messages messages' : list GroupMessage)
        (user : option Z) (group : Z) (content : option string) (newId now : Z)
        (newMessage : GroupMessage) (reply : Reply (list MessageRow)) :
  postMessage db messages user group content newId now
  = (Json 201 newMessage, messages') ->
  getMessages db messages' user group reply ->
  messages' = (messages ++ [newMessage])%list
  /\ exists rows,
      reply = Json 200 rows
      /\ exists row,
          In row rows
          /\ msg_id row = newId
          /\ Some (msg_content row) = content
          /\ msg_createdAt row = now.
Proof.
  unfold postMessage, getMessages. destruct (truthy_id user) as [uid|]; [|discriminate].
  destruct (negb (int4 group)); [discriminate|].
  destruct (Nat.eqb (List.length (membership db group uid)) 0); [discriminate|].
  destruct content as [text|]; [|discriminate].
  destruct (pg_text text); [|discriminate].
  destruct (existsb (fun grp => group_id grp =? group) (groups db)); [|discriminate].
  destruct (existsb (fun u => user_id u =? uid) (users db)) eqn:Hu; [|discriminate].
  cbn [andb]. intros [= <- <-] (rows & Hord & ->).
  split; [reflexivity|]. exists rows. split; [reflexivity|].
  apply existsb_exists in Hu. destruct Hu as (u & Hin & Heq).
  exists {| msg_id := newId; msg_content := text; msg_createdAt := now;
            msg_username := username u |}.
  split; [|auto]. apply (orderBy_desc_In _ _ _ _ Hord).
  unfold messagesQuery. apply in_flat_map. eexists. split.
  - apply in_or_app. right. now left.
  - cbn [message_groupId message_userId message_id message_content message_createdAt].
    rewrite Z.eqb_refl. apply in_map_iff. exists u. split; [reflexivity|].
    apply filter_In. split; [exact Hin | now rewrite Z.eqb_sym].
Qed.

Lemma posted_message_is_listed_witness :
  exists rows,
    runMessages exampleDb
      (snd (postMessage exampleDb [] (Some 1) 1 (Some "hello") 1 400)) (Some 1) 1
    = Json 200 rows
    /\ exists row,
        In row rows /\ msg_id row = 1 /\ Some (msg_content row) = Some "hello"
        /\ msg_createdAt row = 400.
Proof.
  edestruct (posted_message_is_listed exampleDb [])
    with (user := Some 1) (group := 1) (content := Some "hello") (newId := 1)
         (now := 400)
    as (_ & H);
    [reflexivity | apply runMessages_admissible | exact H].
Defined.

(** ** Following *)

Lemma findFollow_followed (db : Database) (a b : Z) :
  findFollow db a b = None <-> followed db a b = false.
Proof.
  unfold findFollow, followed.
  induction (follows db) as [|f rest IH]; cbn; [tauto|].
  destruct ((followerId f =? a) && (followingId f =? b)); cbn; [|exact IH].
  split; discriminate.
Qed.

Lemma findUser_exists (db : Database) (id : Z) :
  findUser db id = None <-> existsb (fun u => user_id u =? id) (users db) = false.
Proof.
  unfold findUser.
  induction (users db) as [|u rest IH]; cbn; [tauto|].
  destruct (user_id u =? id); cbn; [|exact IH]. split; discriminate.
Qed.

(** X24: following oneself is refused with 400; for a user id of the
    [integer] column, following an unknown user is refused with 404 and a
    user already followed with 400; a user id outside the column's range is
    answered 500.  None of these requests writes a row. *)
Theorem follow_refusals (db : Database) (uid target newId : Z) :
  (target = uid ->
   postFollow db (Some uid) target newId
   = (Message 400 "error" "Cannot follow yourself", db))
  /\ (target <> uid ->
      int4 target = true ->
      existsb (fun u => user_id u =? target) (users db) = false ->
      postFollow db (Some uid) target newId
      = (Message 404 "error" "User not found", db))
  /\ (target <> uid ->
      int4 target = true ->
      existsb (fun u => user_id u =? target) (users db) = true ->
      followed db uid target = true ->
      postFollow db (Some uid) target newId
      = (Message 400 "error" "Already following this user", db))
  /\ (target <> uid ->
      int4 target = false ->
      postFollow db (Some uid) target newId
      = (Message 500 "error" "Failed to follow user", db)).
Proof.
  unfold postFollow. split; [|split; [|split]].
  - intros ->. now rewrite Z.eqb_refl.
  - intros Hne Hrange Hno. apply Z.eqb_neq in Hne. rewrite Hne, Hrange.
    apply findUser_exists in Hno. now rewrite Hno.
  - intros Hne Hrange Hyes Hf. apply Z.eqb_neq in Hne. rewrite Hne, Hrange.
    cbn [negb].
    destruct (findUser db target) eqn:Eu.
    2: { apply findUser_exists in Eu. congruence. }
    destruct (findFollow db uid target) eqn:Ef; [reflexivity|].
    apply findFollow_followed in Ef. congruence.
  - intros Hne Hrange. apply Z.eqb_neq in Hne. now rewrite Hne, Hrange.
Qed.

(** Alice already follows Bob. *)
Lemma follow_refusals_witness :
  postFollow exampleDb (Some 1) 2 2
  = (Message 400 "error" "Already following this user", exampleDb).
Proof.
  destruct (follow_refusals exampleDb 1 2 2) as (_ & _ & H & _).
  apply H; [lia | reflexivity | reflexivity | reflexivity].
Defined.

(** X25: following and unfollowing keep one follow row per ordered pair
    of users and never store a row from a user to themselves. *)
Theorem follows_stay_sound (db : Database) (user : option Z) (target newId : Z) :
  unique_follows db = true ->
  no_self_follow db = true ->
  unique_follows (snd (postFollow db user target newId)) = true
  /\ no_self_follow (snd (postFollow db user target newId)) = true
  /\ unique_follows (snd (postUnfollow db user target)) = true
  /\ no_self_follow (snd (postUnfollow db user target)) = true.
Proof.
  intros Hu Hs. unfold postFollow, postUnfollow.
  destruct user as [uid|]; [|auto].
  destruct (Z.eqb_spec target uid) as [E|Hne]; [auto|].
  destruct (negb (int4 target)); [auto|].
  destruct (findUser db target); [|auto].
  split; [|split; [|split]].
  - destruct (findFollow db uid target) eqn:Ef; [exact Hu|].
    destruct (existsb _ (users db)); [|exact Hu].
    apply findFollow_followed in Ef.
    unfold unique_follows. cbn [snd with_follows follows].
    rewrite map_app. cbn [map followerId followingId].
    rewrite distinct_pairs_snoc. fold (unique_follows db). rewrite Hu.
    rewrite existsb_map.
    replace (existsb _ (follows db)) with (followed db uid target);
      [now rewrite Ef|].
    unfold followed. apply existsb_ext_in. intros f. unfold pair_eqb. cbn.
    now rewrite (Z.eqb_sym uid), (Z.eqb_sym target).
  - destruct (findFollow db uid target); [exact Hs|].
    destruct (existsb _ (users db)); [|exact Hs].
    unfold no_self_follow. cbn [snd with_follows follows].
    rewrite forallb_app. fold (no_self_follow db). rewrite Hs. cbn.
    apply Z.eqb_neq in Hne. now rewrite Z.eqb_sym, Hne.
  - unfold unique_follows. cbn [snd with_follows follows].
    now apply distinct_pairs_filter.
  - unfold no_self_follow. cbn [snd with_follows follows].
    now apply forallb_filter_keep.
Qed.

Lemma follows_stay_sound_witness :
  unique_follows (snd (postFollow exampleDb (Some 2) 1 2)) = true
  /\ no_self_follow (snd (postFollow exampleDb (Some 2) 1 2)) = true
  /\ unique_follows (snd (postUnfollow exampleDb (Some 2) 1)) = true
  /\ no_self_follow (snd (postUnfollow exampleDb (Some 2) 1)) = true.
Proof. apply follows_stay_sound; reflexivity. Defined.

Section FollowAndFeed.

Variable P : Platform.

(** X26: after a follow is accepted, every public review of the
    followed user is in the follower's following feed. *)
Theorem follow_shows_reviews (db db' : Database) (uid target newId : Z)
        (req : FeedRequest) (r : Review)
        (reply : Reply (list (LikedRow (option LocationData)))) :
  postFollow db (Some uid) target newId
  = (Message 200 "message" "Successfully followed user", db') ->
  uid <> 0 ->
  req_user req = Some uid ->
  In r (reviews db) ->
  review_userId r = target ->
  isPublic r = true ->
  getFollowing P db' req reply ->
  exists rows, reply = Json 200 rows /\ In (review_id r) (map liked_id rows).
Proof.
  unfold postFollow. destruct (target =? uid); [discriminate|].
  destruct (negb (int4 target)); [discriminate|].
  destruct (findUser db target) as [targetUser|] eqn:Eu; [|discriminate].
  destruct (findFollow db uid target); [discriminate|].
  destruct (existsb _ (users db)); [|discriminate].
  intros [= <-] Hid Hreq Hin Hauthor Hpub. unfold getFollowing.
  rewrite Hreq, (truthy_id_nonzero uid Hid). intros (raw & Hord & ->).
  eexists. split; [reflexivity|]. rewrite map_map. apply in_map_iff.
  assert (Hu : In targetUser (authors (with_follows db
                 (follows db ++ [{| follow_id := newId; followerId := uid;
                                    followingId := target |}])) r)).
  { unfold authors, findUser in *. cbn [with_follows users]. rewrite Hauthor.
    destruct (filter (fun u => user_id u =? target) (users db)) as [|u0 rest] eqn:Ef;
      [discriminate|]. injection Eu as ->.
    assert (Hin0 : In targetUser (filter (fun u => user_id u =? target) (users db)))
      by (rewrite Ef; now left).
    apply filter_In in Hin0. apply filter_In.
    split; [tauto | now rewrite Z.eqb_sym]. }
  eexists. split.
  2: { apply (orderBy_desc_In _ _ _ _ Hord). apply followingQuery_row.
       exists r, targetUser. split; [exact Hin|]. split; [exact Hpub|].
       split; [exact Hu|]. split; [|reflexivity].
       unfold followed. cbn [with_follows follows]. rewrite existsb_app. cbn.
       now rewrite Hauthor, !Z.eqb_refl, orb_true_r. }
  reflexivity.
Qed.

(** X27: after an unfollow, the following feed holds no review of the
    unfollowed user. *)
Theorem unfollow_hides_reviews (db db' : Database) (uid target : Z)
        (req : FeedRequest)
        (reply : Reply (list (LikedRow (option LocationData)))) :
  postUnfollow db (Some uid) target
  = (Message 200 "message" "Successfully unfollowed user", db') ->
  uid <> 0 ->
  req_user req = Some uid ->
  getFollowing P db' req reply ->
  exists rows,
    reply = Json 200 rows
    /\ Forall (fun row =>
                 exists r, In r (reviews db)
                           /\ liked_id row = review_id r
                           /\ review_userId r <> target)
              rows.
Proof.
  unfold postUnfollow. destruct (target =? uid); [discriminate|].
  destruct (negb (int4 target)); [discriminate|].
  destruct (findUser db target) as [targetUser|]; [|discriminate].
  intros [= <-] Hid Hreq. unfold getFollowing.
  rewrite Hreq, (truthy_id_nonzero uid Hid). intros (raw & Hord & ->).
  eexists. split; [reflexivity|]. apply Forall_map, Forall_forall.
  intros row Hin. apply (orderBy_desc_In _ _ _ _ Hord) in Hin.
  apply followingQuery_row in Hin. destruct Hin as (r & u & Hr & _ & _ & Hf & ->).
  exists r. split; [exact Hr|]. split; [reflexivity|].
  intros Heq. unfold followed in Hf. cbn [with_follows follows] in Hf.
  rewrite existsb_filter_and in Hf. apply existsb_exists in Hf.
  destruct Hf as (f & _ & Hf). rewrite Heq in Hf.
  destruct ((followerId f =? uid) && (followingId f =? target)); discriminate.
Qed.

End FollowAndFeed.

(** Alice unfollows Bob and follows him again: his public review 1 is
    back in her following feed. *)
Lemma follow_shows_reviews_witness :
  exists rows,
    runFollowing smallAngle
      (snd (postFollow (snd (postUnfollow exampleDb (Some 1) 2)) (Some 1) 2 2)) alice
    = Json 200 rows
    /\ In 1 (map liked_id rows).
Proof.
  apply (follow_shows_reviews smallAngle
           (snd (postUnfollow exampleDb (Some 1) 2))
           (snd (postFollow (snd (postUnfollow exampleDb (Some 1) 2)) (Some 1) 2 2))
           1 2 2 alice
           {| review_id := 1; review_userId := 2; placeId := "p1";
              placeName := Some "Cafe"; rating := 5; comment := Some "good";
              isPublic := true; groupId := None; location := newYork;
              createdAt := 100 |}).
  - reflexivity.
  - lia.
  - reflexivity.
  - left. reflexivity.
  - reflexivity.
  - reflexivity.
  - apply runFollowing_admissible.
Defined.

Lemma unfollow_hides_reviews_witness :
  exists rows,
    runFollowing smallAngle (snd (postUnfollow exampleDb (Some 1) 2)) alice
    = Json 200 rows
    /\ Forall (fun row =>
                 exists r, In r (reviews exampleDb)
                           /\ liked_id row = review_id r
                           /\ review_userId r <> 2)
              rows.
Proof.
  apply (unfollow_hides_reviews smallAngle exampleDb
           (snd (postUnfollow exampleDb (Some 1) 2)) 1 2 alice).
  - reflexivity.
  - lia.
  - reflexivity.
  - apply runFollowing_admissible.
Defined.
